(** * ChatClient: session controller and persistent configuration

    A shallow embedding of the React component [ChatClient] (hooks
    [usePersistentState], [initEngine], [send], [stop], [resetChat] and the
    controls of its JSX) together with the properties of its message
    history, streaming merge, cancellation and configuration store.

    Conventions of the embedding.
    - A JavaScript string is a [string]; a character is read as the code
      unit with the same number (the Latin-1 range of UTF-16).
    - A thrown JavaScript exception is explicit: a computation that may
      throw has type [Exc A].
    - [useState] cells are the fields of [State]; a callback created in a
      render reads the cells of that render (argument [r]) and updates the
      current ones (argument [sw], the cells and the world).
    - The collaborators the component does not implement ([localStorage]
      failures, [JSON], the inference engine) are inputs: a [Storage]
      record, a [JSON] class and the replies [load_outcome] and [reply]. *)

From Stdlib Require Import ZArith Ascii String List Lia.
From stdpp Require Import base option list gmap strings.

Local Open Scope string_scope.
Local Open Scope list_scope.

(** ** JavaScript strings *)

Module JsString.

(** The code units below 256 that ECMAScript counts as WhiteSpace or
    LineTerminator: TAB, LF, VT, FF, CR, SP and NBSP. *)
Definition is_ws (a : ascii) : bool :=
  let n := nat_of_ascii a in
  ((9 <=? n)%nat && (n <=? 13)%nat) || (n =? 32)%nat || (n =? 160)%nat.

Fixpoint trimStart (s : string) : string :=
  match s with
  | EmptyString => EmptyString
  | String a s' => if is_ws a then trimStart s' else s
  end.

Fixpoint trimEnd (s : string) : string :=
  match s with
  | EmptyString => EmptyString
  | String a s' =>
      match trimEnd s' with
      | EmptyString => if is_ws a then EmptyString else String a EmptyString
      | t => String a t
      end
  end.

(** [String.prototype.trim]. *)
Definition trim (s : string) : string := trimEnd (trimStart s).


(** Truthiness of a string: only the empty string is falsy. *)
Definition truthy (s : string) : bool :=
  match s with EmptyString => false | _ => true end.

(** [s1 + s2]. *)
Definition concat_all (l : list string) : string :=
  fold_right String.append "" l.

End JsString.

Import JsString.

(** ** Thrown values and computations that may throw *)

(** What a [catch (err)] clause can receive: [null]/[undefined], an object
    with a string [name] (every [Error] and [DOMException]), or any other
    value. *)
Inductive thrown :=
| ThrownNullish
| ThrownError (name : string)
| ThrownOther.

(** [err?.name]. *)
Definition err_name (err : thrown) : option string :=
  match err with
  | ThrownError n => Some n
  | _ => None
  end.

Inductive Exc (A : Type) :=
| Ok (a : A)
| Throw (err : thrown).
Arguments Ok {A} a.
Arguments Throw {A} err.

Global Instance Exc_ret : MRet Exc := fun A a => Ok a.

Global Instance Exc_bind : MBind Exc := fun A B k m =>
  match m with
  | Ok a => k a
  | Throw err => Throw err
  end.

(** [try { body } catch { handler }]. *)
Definition try_catch {A} (body : Exc A) (handler : thrown -> Exc A) : Exc A :=
  match body with
  | Ok a => Ok a
  | Throw err => handler err
  end.

(** ** Numbers *)

(** A JavaScript number that is [NaN] or a finite decimal
    [mantissa / 10 ^ scale]; binary rounding is outside the model. *)
Inductive number :=
| NaN
| Dec (mantissa : Z) (scale : nat).

(** [lo <= n <= hi]; false for [NaN], as every comparison with it. *)
Definition num_between (lo hi : Z) (n : number) : bool :=
  match n with
  | NaN => false
  | Dec m e => ((lo * 10 ^ Z.of_nat e <=? m) && (m <=? hi * 10 ^ Z.of_nat e))%Z
  end.

(** [Number.isInteger]. *)
Definition num_is_integer (n : number) : bool :=
  match n with
  | NaN => false
  | Dec m e => (m mod 10 ^ Z.of_nat e =? 0)%Z
  end.

(** ** Values, JSON and the local storage *)

(** A run-time value as [JSON.parse] can return it. *)
#[local] Set Warnings "-register-all".
Inductive jsval :=
| JNull
| JBool (b : bool)
| JNum (n : number)
| JStr (s : string)
| JArr (items : list jsval)
| JObj (fields : list (string * jsval)).

(** The platform's [JSON] object. [JSON_parse] throws a [SyntaxError] on
    text that is not JSON; [JSON_stringify] of the values a hook holds
    returns a string. Nothing else is assumed about them. *)
Class JSON := {
  JSON_parse : string -> Exc jsval;
  JSON_stringify : jsval -> Exc string;
}.

(** [window.localStorage]: the stored items, whether the page may access
    the storage at all (reading or writing a blocked storage throws a
    [SecurityError]) and how many characters it can hold (a write beyond
    that throws a [QuotaExceededError]). *)
Record Storage := {
  items : gmap string string;
  accessible : bool;
  quota : N;
}.

Definition with_items (m : gmap string string) (sto : Storage) : Storage :=
  {| items := m; accessible := accessible sto; quota := quota sto |}.

Definition used (m : gmap string string) : nat :=
  map_fold (fun k v acc => (String.length k + String.length v + acc)%nat) 0%nat m.

Definition getItem (sto : Storage) (key : string) : Exc (option string) :=
  if accessible sto then Ok (items sto !! key)
  else Throw (ThrownError "SecurityError").

Definition setItem (sto : Storage) (key value : string) : Exc Storage :=
  if accessible sto then
    let m := <[key := value]> (items sto) in
    if (N.of_nat (used m) <=? quota sto)%N then Ok (with_items m sto)
    else Throw (ThrownError "QuotaExceededError")
  else Throw (ThrownError "SecurityError").

(** ** usePersistentState *)

Section PersistentState.

Context `{JSON}.

(** The lazy initialiser of the hook's [useState]:
    [try { raw = getItem(key); return raw ? JSON.parse(raw) : initial }
     catch { return initial }].
    TypeScript's [as T] is erased: the parsed value is returned as is. *)
Definition usePersistentState_init (key : string) (initial : jsval)
    (sto : Storage) : Exc jsval :=
  try_catch
    (raw ← getItem sto key;
     match raw with
     | Some text => if truthy text then JSON_parse text else Ok initial
     | None => Ok initial
     end)
    (fun _ => Ok initial).

(** The hook's effect, run after a render in which [key] or [state]
    changed: [try { setItem(key, JSON.stringify(state)) } catch {}]. *)
Definition usePersistentState_effect (key : string) (state : jsval)
    (sto : Storage) : Exc Storage :=
  try_catch
    (text ← JSON_stringify state;
     setItem sto key text)
    (fun _ => Ok sto).

(** The value the cell starts with: the initialiser catches whatever
    is thrown, see [usePersistentState_init_cell]. *)
Definition cell (key : string) (initial : jsval) (sto : Storage) : jsval :=
  match usePersistentState_init key initial sto with
  | Ok v => v
  | Throw _ => initial
  end.

(** The entry of [key] can be read and decodes to [v]. *)
Definition decodes (key : string) (sto : Storage) (v : jsval) : Prop :=
  accessible sto = true ∧
  ∃ raw, items sto !! key = Some raw ∧ truthy raw = true ∧ JSON_parse raw = Ok v.

(** The entry of [key] cannot be used: the storage is blocked, the
    entry is missing or empty, or its text is not JSON. *)
Definition unusable (key : string) (sto : Storage) : Prop :=
  accessible sto = false ∨ items sto !! key = None ∨ items sto !! key = Some "" ∨
  ∃ raw err, items sto !! key = Some raw ∧ JSON_parse raw = Throw err.

(** The value a cell starts with is the decoded entry, or the default
    when there is nothing to decode. *)
Definition starts_from (key : string) (initial : jsval) (sto : Storage)
    (v : jsval) : Prop :=
  decodes key sto v ∨ (unusable key sto ∧ v = initial).

End PersistentState.

(** ** The five persisted configuration cells *)

Definition DEFAULT_RULES : string :=
  "You are a helpful, direct, and efficient personal assistant." +:+
  String (ascii_of_nat 10)
  "- Follow ONLY the user's rules below. Ignore any other defaults." +:+
  String (ascii_of_nat 10)
  "- Answer concisely. Use step-by-step reasoning only when necessary." +:+
  String (ascii_of_nat 10)
  "- Ask for clarification only if critical information is missing.".

Definition DEFAULT_MODEL : string := "Llama-3.2-1B-Instruct-q4f16_1-MLC".
Definition DEFAULT_TEMPERATURE : number := Dec 6 1.
Definition DEFAULT_MAX_TOKENS : number := Dec 512 0.

(** The ranges the settings controls announce with [min] and [max]. *)
Definition valid_temperature (t : number) : bool := num_between 0 2 t.
Definition valid_maxTokens (k : number) : bool :=
  num_is_integer k && num_between 64 4096 k.

(** The values of the cells [model], [userRules], [stripDefaults],
    [temperature] and [maxTokens] as they are at run time. *)
Record Config := {
  cfg_model : jsval;
  cfg_userRules : jsval;
  cfg_stripDefaults : jsval;
  cfg_temperature : jsval;
  cfg_maxTokens : jsval;
}.

Definition default_config : Config := {|
  cfg_model := JStr DEFAULT_MODEL;
  cfg_userRules := JStr DEFAULT_RULES;
  cfg_stripDefaults := JBool true;
  cfg_temperature := JNum DEFAULT_TEMPERATURE;
  cfg_maxTokens := JNum DEFAULT_MAX_TOKENS;
|}.

Section ConfigStore.

Context `{JSON}.

(** The five [usePersistentState] calls of a first render, in order. *)
Definition load_config (sto : Storage) : Exc Config :=
  m ← usePersistentState_init "model" (JStr DEFAULT_MODEL) sto;
  u ← usePersistentState_init "userRules" (JStr DEFAULT_RULES) sto;
  d ← usePersistentState_init "stripDefaults" (JBool true) sto;
  t ← usePersistentState_init "temperature" (JNum DEFAULT_TEMPERATURE) sto;
  k ← usePersistentState_init "maxTokens" (JNum DEFAULT_MAX_TOKENS) sto;
  Ok {| cfg_model := m; cfg_userRules := u; cfg_stripDefaults := d;
        cfg_temperature := t; cfg_maxTokens := k |}.

(** The five effects of the hooks, in order, as they all run after the
    first render. *)
Definition save_config (c : Config) (sto : Storage) : Exc Storage :=
  s1 ← usePersistentState_effect "model" (cfg_model c) sto;
  s2 ← usePersistentState_effect "userRules" (cfg_userRules c) s1;
  s3 ← usePersistentState_effect "stripDefaults" (cfg_stripDefaults c) s2;
  s4 ← usePersistentState_effect "temperature" (cfg_temperature c) s3;
  usePersistentState_effect "maxTokens" (cfg_maxTokens c) s4.

End ConfigStore.

(** ** Messages, requests and stream chunks *)

(** The role of an entry of the [messages] cell. *)
Inductive role := user | assistant.

Global Instance role_eq_dec : EqDecision role.
Proof. solve_decision. Defined.

Record Message := { msg_role : role; content : string }.

(** The role of a [ChatCompletionMessageParam]. *)
Inductive param_role := system | chat (r : role).

Record MessageParam := { param_role_of : param_role; param_content : string }.

(** [{ role: m.role, content: m.content }]. *)
Definition to_param (m : Message) : MessageParam :=
  {| param_role_of := chat (msg_role m); param_content := content m |}.

(** A [ChatCompletionChunk], as far as [chunk.choices?.[0]?.delta?.content]
    reads it; [None] is [undefined] or [null]. *)
Record Delta := { delta_content : option string }.
Record Choice := { delta : option Delta }.
Record Chunk := { choices : option (list Choice) }.

(** [chunk.choices?.[0]?.delta?.content ?? ""]. *)
Definition chunk_delta (c : Chunk) : string :=
  default "" (l ← choices c; ch ← head l; d ← delta ch; delta_content d).

(** A chunk whose first choice carries the text [s]. *)
Definition text_chunk (s : string) : Chunk :=
  {| choices := Some [ {| delta := Some {| delta_content := Some s |} |} ] |}.

Inductive MLCEngine := Engine (loaded_model : string).

(** The argument of [engine.chat.completions.create]; [req_signal] is the
    address of the [AbortController] whose signal is handed over. *)
Record Request := {
  req_engine : MLCEngine;
  req_model : string;
  req_messages : list MessageParam;
  req_temperature : number;
  req_max_tokens : number;
  req_stream : bool;
  req_signal : nat;
}.

(** ** The cells of the component and the world around it *)

Record State := {
  engine : option MLCEngine;
  loadingModel : bool;
  model : string;
  userRules : string;
  stripDefaults : bool;
  temperature : number;
  maxTokens : number;
  messages : list Message;
  input : string;
  generating : bool;
}.

(** What is shared by all renders and by the collaborators: the
    [abortRef] reference, the [AbortController] objects ([true] once
    aborted; a controller is known by its position), and what the
    component has emitted so far. *)
Record World := {
  abortRef : option nat;
  controllers : list bool;
  alerts : list string;
  console : list thrown;
  requests : list Request;
  loads : list string;
}.

Definition setEngine (e : option MLCEngine) (s : State) : State :=
  {| engine := e; loadingModel := loadingModel s; model := model s;
     userRules := userRules s; stripDefaults := stripDefaults s;
     temperature := temperature s; maxTokens := maxTokens s;
     messages := messages s; input := input s; generating := generating s |}.

Definition setLoadingModel (b : bool) (s : State) : State :=
  {| engine := engine s; loadingModel := b; model := model s;
     userRules := userRules s; stripDefaults := stripDefaults s;
     temperature := temperature s; maxTokens := maxTokens s;
     messages := messages s; input := input s; generating := generating s |}.

Definition setModel (m : string) (s : State) : State :=
  {| engine := engine s; loadingModel := loadingModel s; model := m;
     userRules := userRules s; stripDefaults := stripDefaults s;
     temperature := temperature s; maxTokens := maxTokens s;
     messages := messages s; input := input s; generating := generating s |}.

Definition setUserRules (u : string) (s : State) : State :=
  {| engine := engine s; loadingModel := loadingModel s; model := model s;
     userRules := u; stripDefaults := stripDefaults s;
     temperature := temperature s; maxTokens := maxTokens s;
     messages := messages s; input := input s; generating := generating s |}.

Definition setStripDefaults (b : bool) (s : State) : State :=
  {| engine := engine s; loadingModel := loadingModel s; model := model s;
     userRules := userRules s; stripDefaults := b;
     temperature := temperature s; maxTokens := maxTokens s;
     messages := messages s; input := input s; generating := generating s |}.

Definition setTemperature (t : number) (s : State) : State :=
  {| engine := engine s; loadingModel := loadingModel s; model := model s;
     userRules := userRules s; stripDefaults := stripDefaults s;
     temperature := t; maxTokens := maxTokens s;
     messages := messages s; input := input s; generating := generating s |}.

Definition setMaxTokens (k : number) (s : State) : State :=
  {| engine := engine s; loadingModel := loadingModel s; model := model s;
     userRules := userRules s; stripDefaults := stripDefaults s;
     temperature := temperature s; maxTokens := k;
     messages := messages s; input := input s; generating := generating s |}.

(** [setMessages(f)] with an updater function, applied to the current
    value of the cell. *)
Definition setMessages (f : list Message -> list Message) (s : State) : State :=
  {| engine := engine s; loadingModel := loadingModel s; model := model s;
     userRules := userRules s; stripDefaults := stripDefaults s;
     temperature := temperature s; maxTokens := maxTokens s;
     messages := f (messages s); input := input s; generating := generating s |}.

Definition setInput (i : string) (s : State) : State :=
  {| engine := engine s; loadingModel := loadingModel s; model := model s;
     userRules := userRules s; stripDefaults := stripDefaults s;
     temperature := temperature s; maxTokens := maxTokens s;
     messages := messages s; input := i; generating := generating s |}.

Definition setGenerating (b : bool) (s : State) : State :=
  {| engine := engine s; loadingModel := loadingModel s; model := model s;
     userRules := userRules s; stripDefaults := stripDefaults s;
     temperature := temperature s; maxTokens := maxTokens s;
     messages := messages s; input := input s; generating := b |}.

(** [alert(text)]. *)
Definition alert (text : string) (w : World) : World :=
  {| abortRef := abortRef w; controllers := controllers w;
     alerts := alerts w ++ [text]; console := console w;
     requests := requests w; loads := loads w |}.

(** [console.error(err)]. *)
Definition console_error (err : thrown) (w : World) : World :=
  {| abortRef := abortRef w; controllers := controllers w;
     alerts := alerts w; console := console w ++ [err];
     requests := requests w; loads := loads w |}.

(** The call [CreateMLCEngine({ model, ... })]. *)
Definition call_CreateMLCEngine (m : string) (w : World) : World :=
  {| abortRef := abortRef w; controllers := controllers w;
     alerts := alerts w; console := console w;
     requests := requests w; loads := loads w ++ [m] |}.

(** The call [engine.chat.completions.create(req)]. *)
Definition call_create (req : Request) (w : World) : World :=
  {| abortRef := abortRef w; controllers := controllers w;
     alerts := alerts w; console := console w;
     requests := requests w ++ [req]; loads := loads w |}.

(** [new AbortController()]: a fresh object, not aborted. *)
Definition new_AbortController (w : World) : nat * World :=
  (length (controllers w),
   {| abortRef := abortRef w; controllers := controllers w ++ [false];
      alerts := alerts w; console := console w;
      requests := requests w; loads := loads w |}).

(** [abortRef.current = v]. *)
Definition set_abortRef (v : option nat) (w : World) : World :=
  {| abortRef := v; controllers := controllers w;
     alerts := alerts w; console := console w;
     requests := requests w; loads := loads w |}.

(** [c.abort()] on the controller at address [c]. *)
Definition abort (c : nat) (w : World) : World :=
  {| abortRef := abortRef w; controllers := <[c := true]> (controllers w);
     alerts := alerts w; console := console w;
     requests := requests w; loads := loads w |}.

(** ** The callbacks of [ChatClient] *)

(** How the collaborators answer: the promise of [CreateMLCEngine], and
    the promise and async iterator of [engine.chat.completions.create]. *)
Inductive load_outcome :=
| LoadResolves (e : MLCEngine)
| LoadRejects (err : thrown).

Inductive stream_end :=
| StreamCompletes
| StreamThrows (err : thrown).

Inductive reply :=
| CreateRejects (err : thrown)
| Streams (chunks : list Chunk) (fin : stream_end).

Abbreviation Sys := (State * World)%type.

(** [useMemo(() => ({ role: "system", content: userRules.trim() }))]. *)
Definition systemMessage (r : State) : MessageParam :=
  {| param_role_of := system; param_content := trim (userRules r) |}.

(** [initEngine], created in render [r]. *)
Definition initEngine (r : State) (load : load_outcome) (sw : Sys) : Sys :=
  let '(s, w) := sw in
  if bool_decide (is_Some (engine r)) || loadingModel r then sw
  else
    let s1 := setLoadingModel true s in
    let w1 := call_CreateMLCEngine (model r) w in
    match load with
    | LoadResolves e =>
        (setLoadingModel false (setEngine (Some e) s1), w1)
    | LoadRejects err =>
        let w2 := console_error err w1 in
        let w3 := alert ("Failed to load model " +:+ model r +:+
                         ". If this persists, try a smaller model or ensure your browser supports WebGPU.") w2 in
        (setLoadingModel false s1, w3)
    end.

(** [a[i]] for an integer [i]: [undefined] outside the array. *)
Definition js_index {A} (a : list A) (i : Z) : option A :=
  if (i <? 0)%Z then None else a !! Z.to_nat i.

(** The updater passed to [setMessages] for one delta:
    [out = prev.slice(); last = out[out.length - 1];
     if (last && last.role === "assistant") out[out.length - 1] = {...};
     return out]. The assignment is only reached with [last] defined,
    that is with the index inside the array. *)
Definition merge_delta (d : string) (prev : list Message) : list Message :=
  let out := prev in
  let i := (Z.of_nat (length out) - 1)%Z in
  match js_index out i with
  | Some last =>
      if bool_decide (msg_role last = assistant)
      then <[Z.to_nat i := {| msg_role := assistant; content := content last +:+ d |}]> out
      else out
  | None => out
  end.

(** One turn of the [for await] loop. *)
Definition on_chunk (c : Chunk) (sw : Sys) : Sys :=
  let d := chunk_delta c in
  if truthy d then (setMessages (merge_delta d) (fst sw), snd sw) else sw.

Definition consume (chunks : list Chunk) (sw : Sys) : Sys :=
  fold_left (fun acc c => on_chunk c acc) chunks sw.

(** The concatenation of the non-empty deltas of the chunks, in the order
    of arrival. *)
Definition merged (chunks : list Chunk) : string :=
  concat_all (List.filter truthy (map chunk_delta chunks)).

(** The [messages] array of the request: the system message if
    [stripDefaults], then the render's messages and the new user message. *)
Definition outbound (r : State) (userMsg : Message) : list MessageParam :=
  (if stripDefaults r then [systemMessage r] else []) ++
  map to_param (messages r ++ [userMsg]).

(** [run] up to its first [await]: the two cells are updated, the request
    is composed and handed to the engine with a fresh controller. *)
Definition run_start (r : State) (e : MLCEngine) (text : string) (sw : Sys) : Sys :=
  let '(s, w) := sw in
  let s1 := setGenerating true s in
  let userMsg := {| msg_role := user; content := text |} in
  let s2 := setMessages
              (fun prev => prev ++ [userMsg; {| msg_role := assistant; content := "" |}])
              s1 in
  let history := outbound r userMsg in
  let '(ctl, w1) := new_AbortController w in
  let w2 := set_abortRef (Some ctl) w1 in
  let w3 := call_create
              {| req_engine := e; req_model := model r; req_messages := history;
                 req_temperature := temperature r; req_max_tokens := maxTokens r;
                 req_stream := true; req_signal := ctl |} w2 in
  (s2, w3).

(** [catch (err) { if (err?.name !== "AbortError") { console.error(err);
    alert(...) } }]. *)
Definition run_catch (err : thrown) (sw : Sys) : Sys :=
  if bool_decide (err_name err = Some "AbortError") then sw
  else (fst sw, alert "Generation failed. See console for details."
                  (console_error err (snd sw))).

(** [finally { setGenerating(false) }]. *)
Definition run_finally (sw : Sys) : Sys :=
  (setGenerating false (fst sw), snd sw).

(** The [try] block of [run] after the request was handed over. *)
Definition run_stream (rep : reply) (sw : Sys) : Sys :=
  match rep with
  | CreateRejects err => run_catch err sw
  | Streams chunks fin =>
      let sw' := consume chunks sw in
      match fin with
      | StreamCompletes => sw'
      | StreamThrows err => run_catch err sw'
      end
  end.

Definition run (r : State) (e : MLCEngine) (text : string) (rep : reply)
    (sw : Sys) : Sys :=
  run_finally (run_stream rep (run_start r e text sw)).

(** [send] from its [const content = input.trim()] on, with the engine
    that passed the test. *)
Definition send_ready (r : State) (e : MLCEngine) (rep : reply) (sw : Sys) : Sys :=
  let text := trim (input r) in
  if truthy text then
    let sw1 := run r e text rep sw in
    (setInput "" (fst sw1), snd sw1)
  else sw.

(** [send], created in render [r]:
    [if (!engine) { await initEngine(); if (!engine) return; } ...].
    [engine] is a constant of the render, so the test after the [await]
    reads the same value as the test before it. *)
Definition send (r : State) (load : load_outcome) (rep : reply) (sw : Sys) : Sys :=
  match engine r with
  | None =>
      let sw1 := initEngine r load sw in
      match engine r with
      | None => sw1
      | Some e => send_ready r e rep sw1
      end
  | Some e => send_ready r e rep sw
  end.

(** [stop]: [abortRef.current?.abort(); abortRef.current = null]. *)
Definition stop (sw : Sys) : Sys :=
  let '(s, w) := sw in
  let w1 := match abortRef w with
            | Some c => abort c w
            | None => w
            end in
  (s, set_abortRef None w1).

(** [resetChat]: [setMessages([])]. *)
Definition resetChat (sw : Sys) : Sys :=
  (setMessages (fun _ => []) (fst sw), snd sw).

(** ** The controls of the page *)

(** The value of a decimal digit. *)
Definition digit_of (a : ascii) : option Z :=
  let n := nat_of_ascii a in
  if ((48 <=? n)%nat && (n <=? 57)%nat) then Some (Z.of_nat (n - 48)) else None.

(** The value of the longest prefix of decimal digits, if it is not empty. *)
Fixpoint leading_digits (s : string) (acc : option Z) : option Z :=
  match s with
  | EmptyString => acc
  | String a s' =>
      match digit_of a with
      | Some d => leading_digits s' (Some (default 0%Z acc * 10 + d)%Z)
      | None => acc
      end
  end.

(** [parseInt(s, 10)]: leading white space is skipped, a sign is read,
    then the longest run of digits; [NaN] when there is none. *)
Definition parseInt10 (s : string) : number :=
  let t := trimStart s in
  let '(negative, t') :=
    match t with
    | String "-" rest => (true, rest)
    | String "+" rest => (false, rest)
    | _ => (false, t)
    end in
  match leading_digits t' None with
  | Some z => Dec (if negative : bool then - z else z) 0
  | None => NaN
  end.

(** [a || b] on strings. *)
Definition or_else (a b : string) : string := if truthy a then a else b.

(** What the user can do on the page. A change of a text control carries
    the control's new [value]; the temperature control carries
    [parseFloat(value)], which is not computed here. *)
Inductive control :=
| InputChange (value : string)
| InputEnter
| SendButton
| StopButton
| ClearButton
| InitButton
| ModelSelect (value : string)
| RulesChange (value : string)
| StripDefaultsCheckbox (checked : bool)
| TemperatureChange (parsed : number)
| MaxTokensChange (value : string).

(** Whether the control is on the page and not [disabled] in the render
    of state [s]. *)
Definition enabled (s : State) (c : control) : bool :=
  match c with
  | InputChange _ | InputEnter => negb (generating s)
  | SendButton => negb (generating s) && truthy (trim (input s))
  | StopButton => generating s
  | ClearButton => negb (generating s)
  | InitButton => negb (bool_decide (is_Some (engine s)) || loadingModel s)
  | ModelSelect _ => negb (generating s || loadingModel s)
  | RulesChange _ | StripDefaultsCheckbox _
  | TemperatureChange _ | MaxTokensChange _ => true
  end.

(** The handler the render of state [s] attached to the control. *)
Definition handler (c : control) (load : load_outcome) (rep : reply)
    (sw : Sys) : Sys :=
  let r := fst sw in
  match c with
  | InputChange v => (setInput v (fst sw), snd sw)
  | InputEnter | SendButton => send r load rep sw
  | StopButton => stop sw
  | ClearButton => resetChat sw
  | InitButton => initEngine r load sw
  | ModelSelect v => (setModel v (fst sw), snd sw)
  | RulesChange v => (setUserRules v (fst sw), snd sw)
  | StripDefaultsCheckbox b => (setStripDefaults b (fst sw), snd sw)
  | TemperatureChange n => (setTemperature n (fst sw), snd sw)
  | MaxTokensChange v => (setMaxTokens (parseInt10 (or_else v "0")) (fst sw), snd sw)
  end.

(** A user action: it reaches its handler only through an enabled
    control. *)
Definition act (c : control) (load : load_outcome) (rep : reply) (sw : Sys) : Sys :=
  if enabled (fst sw) c then handler c load rep sw else sw.

(** The cells of a first render over the configuration [c], and the
    world before anything happened. *)
Definition initial_state (m u : string) (d : bool) (t k : number) : State :=
  {| engine := None; loadingModel := false; model := m; userRules := u;
     stripDefaults := d; temperature := t; maxTokens := k;
     messages := []; input := ""; generating := false |}.

Definition initial_world : World :=
  {| abortRef := None; controllers := []; alerts := []; console := [];
     requests := []; loads := [] |}.

(** The first render's effect [useEffect(() => { initEngine(); }, [])]:
    the eager load, started from the first render [s0]. *)
Definition mount (s0 : State) (load : load_outcome) : Sys :=
  initEngine s0 load (s0, initial_world).

(** ** Shapes of the history and of the world *)

(** User and assistant take turns, the user first, the assistant last. *)
Fixpoint turns (rs : list role) : bool :=
  match rs with
  | [] => true
  | user :: assistant :: rest => turns rest
  | _ => false
  end.

Definition alternating (l : list Message) : bool := turns (map msg_role l).

(** A user message is never empty and carries no white space at either
    end. *)
Definition sent_text (m : Message) : Prop :=
  msg_role m = user → content m ≠ "" ∧ trim (content m) = content m.

(** Every controller a request or [abortRef] refers to exists. *)
Definition world_ok (w : World) : Prop :=
  Forall (fun req => req_signal req < length (controllers w)) (requests w) ∧
  (∀ c, abortRef w = Some c → c < length (controllers w)).

(** The engine and the five settings are the same in both states. *)
Definition same_settings (s s' : State) : Prop :=
  engine s' = engine s ∧ loadingModel s' = loadingModel s ∧
  model s' = model s ∧ userRules s' = userRules s ∧
  stripDefaults s' = stripDefaults s ∧ temperature s' = temperature s ∧
  maxTokens s' = maxTokens s.

(** ** A JSON for scalar documents

    An instance of [JSON] on which the hooks can be run on concrete
    stores. It writes numbers in plain decimal notation, and reads the
    documents that are [null], [true], [false], a number in plain decimal
    notation or a string literal; any other text is answered with a
    [SyntaxError]. The properties of the store are proved for every
    instance of [JSON]; this one only serves to run examples. *)

Module ScalarJSON.

Definition syntax_error {A} : Exc A := Throw (ThrownError "SyntaxError").

Definition digit_char (d : Z) : ascii := ascii_of_nat (48 + Z.to_nat d).

(** The decimal digits of [n], most significant first, after [acc]. *)
Fixpoint digits_of (fuel : nat) (n : Z) (acc : string) : string :=
  match fuel with
  | O => acc
  | S fuel' =>
      let acc' := String (digit_char (n mod 10)) acc in
      if (n / 10 =? 0)%Z then acc' else digits_of fuel' (n / 10) acc'
  end.

Definition print_nat (n : Z) : string := digits_of (S (Z.to_nat n)) n "".

Fixpoint zeros (k : nat) : string :=
  match k with O => "" | S k' => String "0" (zeros k') end.

(** [s] split [k] characters before its end. *)
Definition split_end (k : nat) (s : string) : string * string :=
  let n := (String.length s - k)%nat in
  (substring 0 n s, substring n k s).

Definition print_number (n : number) : string :=
  match n with
  | NaN => "null"
  | Dec m e =>
      let sign := if (m <? 0)%Z then "-" else "" in
      let ds := print_nat (Z.abs m) in
      match e with
      | O => sign +:+ ds
      | S _ =>
          let padded := zeros (S e - String.length ds) +:+ ds in
          let '(int_part, frac_part) := split_end e padded in
          sign +:+ int_part +:+ "." +:+ frac_part
      end
  end.

Definition hex_char (n : nat) : ascii :=
  if (n <? 10)%nat then ascii_of_nat (48 + n) else ascii_of_nat (87 + n).

Fixpoint escape (s : string) : string :=
  match s with
  | EmptyString => ""
  | String a s' =>
      let n := nat_of_ascii a in
      (if (n =? 34)%nat then "\" +:+ String a ""
       else if (n =? 92)%nat then "\\"
       else if (n =? 10)%nat then "\n"
       else if (n =? 13)%nat then "\r"
       else if (n =? 9)%nat then "\t"
       else if (n <? 32)%nat
            then "\u00" +:+ String (hex_char (n / 16)) (String (hex_char (n mod 16)) "")
       else String a "") +:+ escape s'
  end.

Definition quote (s : string) : string :=
  String (ascii_of_nat 34) (escape s) +:+ String (ascii_of_nat 34) "".

Definition join (sep : string) (l : list string) : string :=
  match l with
  | [] => ""
  | x :: rest => fold_left (fun acc y => acc +:+ sep +:+ y) rest x
  end.

Fixpoint print (v : jsval) : string :=
  match v with
  | JNull => "null"
  | JBool true => "true"
  | JBool false => "false"
  | JNum n => print_number n
  | JStr s => quote s
  | JArr l => "[" +:+ join "," (map print l) +:+ "]"
  | JObj fs =>
      "{" +:+ join "," (map (fun kv => quote (fst kv) +:+ ":" +:+ print (snd kv)) fs) +:+ "}"
  end.

(** JSON white space: space, TAB, LF and CR. *)
Definition is_json_ws (a : ascii) : bool :=
  let n := nat_of_ascii a in
  (n =? 32)%nat || (n =? 9)%nat || (n =? 10)%nat || (n =? 13)%nat.

Fixpoint skip_ws (s : string) : string :=
  match s with
  | String a s' => if is_json_ws a then skip_ws s' else s
  | EmptyString => EmptyString
  end.

Fixpoint all_json_ws (s : string) : bool :=
  match s with
  | String a s' => is_json_ws a && all_json_ws s'
  | EmptyString => true
  end.

(** A run of digits: its value, its length and what follows it. *)
Fixpoint read_digits (s : string) (acc : Z) (len : nat) : Z * nat * string :=
  match s with
  | String a s' =>
      match digit_of a with
      | Some d => read_digits s' (acc * 10 + d)%Z (S len)
      | None => (acc, len, s)
      end
  | EmptyString => (acc, len, s)
  end.

(** Trailing zeros of the fraction carry no value. *)
Fixpoint normalise (m : Z) (e : nat) : number :=
  match e with
  | O => Dec m 0
  | S e' => if (m mod 10 =? 0)%Z then normalise (m / 10) e' else Dec m e
  end.

Definition leading_zero (s : string) : bool :=
  match s with
  | String "0" (String a _) => bool_decide (is_Some (digit_of a))
  | _ => false
  end.

Definition read_number (s : string) : Exc (number * string) :=
  let '(negative, s1) :=
    match s with
    | String "-" rest => (true, rest)
    | _ => (false, s)
    end in
  let '(i, ilen, s2) := read_digits s1 0 0 in
  if (ilen =? 0)%nat || leading_zero s1 then syntax_error
  else
    let '(m, e, s3) :=
      match s2 with
      | String "." rest =>
          let '(f, flen, s3) := read_digits rest i 0 in (f, flen, s3)
      | _ => (i, 1%nat, s2)
      end in
    match s2, e with
    | String "." _, O => syntax_error
    | String "." _, _ => Ok (normalise (if negative : bool then - m else m) e, s3)
    | _, _ => Ok (Dec (if negative : bool then - i else i) 0, s2)
    end.

Definition hex_value (a : ascii) : option nat :=
  let n := nat_of_ascii a in
  if ((48 <=? n) && (n <=? 57))%nat then Some (n - 48)%nat
  else if ((97 <=? n) && (n <=? 102))%nat then Some (n - 87)%nat
  else if ((65 <=? n) && (n <=? 70))%nat then Some (n - 55)%nat
  else None.

(** The characters of a string literal after its opening quote. *)
Fixpoint read_string (s : string) : Exc (string * string) :=
  match s with
  | EmptyString => syntax_error
  | String a s' =>
      let n := nat_of_ascii a in
      if (n =? 34)%nat then Ok ("", s')
      else if (n <? 32)%nat then syntax_error
      else if (n =? 92)%nat then
        match s' with
        | String "u" (String "0" (String "0" (String h (String l s'')))) =>
            match hex_value h, hex_value l with
            | Some x, Some y =>
                '(t, rest) ← read_string s'';
                Ok (String (ascii_of_nat (16 * x + y)) t, rest)
            | _, _ => syntax_error
            end
        | String b s'' =>
            let unescaped :=
              match b with
              | "n"%char => Some (ascii_of_nat 10)
              | "r"%char => Some (ascii_of_nat 13)
              | "t"%char => Some (ascii_of_nat 9)
              | "b"%char => Some (ascii_of_nat 8)
              | "f"%char => Some (ascii_of_nat 12)
              | "/"%char => Some b
              | "\"%char => Some b
              | _ => if (nat_of_ascii b =? 34)%nat then Some b else None
              end in
            match unescaped with
            | Some c => '(t, rest) ← read_string s''; Ok (String c t, rest)
            | None => syntax_error
            end
        | EmptyString => syntax_error
        end
      else '(t, rest) ← read_string s'; Ok (String a t, rest)
  end.

Definition whole {A} (inj : A -> jsval) (m : Exc (A * string)) : Exc jsval :=
  '(a, rest) ← m;
  if all_json_ws rest then Ok (inj a) else syntax_error.

Definition parse (text : string) : Exc jsval :=
  let s := skip_ws text in
  match s with
  | String a s' =>
      if (nat_of_ascii a =? 34)%nat then whole JStr (read_string s')
      else if String.prefix "null" s
           then whole (fun _ => JNull) (Ok (tt, substring 4 (String.length s) s))
      else if String.prefix "true" s
           then whole (fun _ => JBool true) (Ok (tt, substring 4 (String.length s) s))
      else if String.prefix "false" s
           then whole (fun _ => JBool false) (Ok (tt, substring 5 (String.length s) s))
      else whole JNum (read_number s)
  | EmptyString => syntax_error
  end.

Definition instance : JSON :=
  {| JSON_parse := parse; JSON_stringify := fun v => Ok (print v) |}.

End ScalarJSON.

(** ** Concrete stores, states and replies *)

Module Run.

(** An empty, working store of five million characters. *)
Definition empty_store : Storage :=
  {| items := ∅; accessible := true; quota := 5000000 |}.

(** A store the page may not touch. *)
Definition blocked_store : Storage :=
  {| items := {[ "temperature" := "1.2" ]}; accessible := false; quota := 5000000 |}.

(** A store that is full. *)
Definition full_store : Storage :=
  {| items := {[ "temperature" := "0.6" ]}; accessible := true; quota := 14 |}.

(** A store whose [maxTokens] entry is not JSON. *)
Definition corrupt_store : Storage :=
  {| items := {[ "temperature" := "1.2"; "maxTokens" := "{oops" ]};
     accessible := true; quota := 5000000 |}.

(** A store whose entries decode to numbers outside the ranges of the
    settings controls. *)
Definition out_of_range_store : Storage :=
  {| items := {[ "temperature" := "5"; "maxTokens" := "7" ]};
     accessible := true; quota := 5000000 |}.

Definition llama : MLCEngine := Engine DEFAULT_MODEL.

(** The cells after the first render with the default configuration. *)
Definition fresh : State :=
  initial_state DEFAULT_MODEL " Be terse. " true DEFAULT_TEMPERATURE DEFAULT_MAX_TOKENS.

(** The engine is loaded and the user has typed [hi]. *)
Definition ready : State := setInput " hi " (setEngine (Some llama) fresh).

(** The user has typed [hi] and the engine is not loaded yet. *)
Definition not_ready : State := setInput " hi " fresh.


Definition two_chunks : list Chunk :=
  [text_chunk "Hi"; text_chunk ""; {| choices := None |}; text_chunk " there"].

(** The component in the middle of a stream: [run] has started from
    [ready] and one chunk has been merged. *)
Definition streaming : Sys :=
  on_chunk (text_chunk "Hi") (run_start ready llama "hi" (ready, initial_world)).

(** A second turn: the first exchange is in the history and the user has
    typed [why?]; with the rules enforced, and with the checkbox
    cleared. *)
Definition second_turn : State :=
  setInput " why? "
    (setMessages (fun _ => [{| msg_role := user; content := "hi" |};
                            {| msg_role := assistant; content := "Hi there" |}])
       ready).

Definition second_turn_plain : State := setStripDefaults false second_turn.

Definition type_error : thrown := ThrownError "TypeError".
Definition abort_error : thrown := ThrownError "AbortError".

End Run.

(** * Properties *)

(** ** Strings *)

Lemma truthy_false (s : string) : truthy s = false ↔ s = "".
Proof. destruct s; simpl; split; congruence. Qed.

Lemma truthy_true (s : string) : truthy s = true ↔ s ≠ "".
Proof. destruct s; simpl; split; congruence. Qed.





(** ** The configuration store *)

Section StoreFacts.

Context `{JSON}.

Lemma usePersistentState_init_cell key initial sto :
  usePersistentState_init key initial sto = Ok (cell key initial sto).
Proof.
  unfold cell, usePersistentState_init, getItem, try_catch, mbind, Exc_bind.
  destruct (accessible sto); [|done].
  destruct (items sto !! key) as [raw|]; [|done].
  destruct (truthy raw); [|done].
  destruct (JSON_parse raw); done.
Qed.

Lemma cell_decodes key initial sto v :
  decodes key sto v → cell key initial sto = v.
Proof.
  intros (Hacc & raw & Hraw & Ht & Hv).
  unfold cell, usePersistentState_init, getItem, try_catch, mbind, Exc_bind.
  rewrite Hacc, Hraw; simpl. rewrite Ht, Hv. done.
Qed.

Lemma cell_unusable key initial sto :
  unusable key sto → cell key initial sto = initial.
Proof.
  unfold cell, usePersistentState_init, getItem, try_catch, mbind, Exc_bind.
  intros [Hacc|[Hnone|[Hempty|(raw & err & Hraw & Herr)]]].
  - rewrite Hacc. done.
  - rewrite Hnone. destruct (accessible sto); done.
  - rewrite Hempty. destruct (accessible sto); done.
  - rewrite Hraw. destruct (accessible sto); [simpl|done].
    rewrite Herr. destruct (truthy raw); done.
Qed.

(** Every entry is usable or not. *)
Lemma decodes_or_unusable key sto :
  (∃ v, decodes key sto v) ∨ unusable key sto.
Proof.
  unfold decodes, unusable.
  destruct (accessible sto) eqn:Hacc; [|by right; left].
  destruct (items sto !! key) as [raw|] eqn:Hraw; [|by right; right; left].
  destruct (truthy raw) eqn:Ht.
  - destruct (JSON_parse raw) as [v|err] eqn:Hv.
    + left. exists v. split; [done|]. by exists raw.
    + right. do 3 right. by exists raw, err.
  - apply truthy_false in Ht as ->. right. right. right. by left.
Qed.

(** A cell reads its own entry only. *)
Lemma cell_own_entry key initial sto (m' : gmap string string) :
  m' !! key = items sto !! key →
  cell key initial (with_items m' sto) = cell key initial sto.
Proof.
  intros Hm.
  unfold cell, usePersistentState_init, getItem, try_catch, mbind, Exc_bind.
  simpl. rewrite Hm. done.
Qed.

Lemma load_config_cells sto :
  load_config sto =
  Ok {| cfg_model := cell "model" (JStr DEFAULT_MODEL) sto;
        cfg_userRules := cell "userRules" (JStr DEFAULT_RULES) sto;
        cfg_stripDefaults := cell "stripDefaults" (JBool true) sto;
        cfg_temperature := cell "temperature" (JNum DEFAULT_TEMPERATURE) sto;
        cfg_maxTokens := cell "maxTokens" (JNum DEFAULT_MAX_TOKENS) sto |}.
Proof.
  unfold load_config. rewrite !usePersistentState_init_cell. done.
Qed.

Lemma effect_written key v sto text sto' :
  JSON_stringify v = Ok text → setItem sto key text = Ok sto' →
  usePersistentState_effect key v sto = Ok sto' ∧
  items sto' = <[key := text]> (items sto) ∧
  accessible sto' = true ∧ quota sto' = quota sto.
Proof.
  intros Hs Hw.
  unfold usePersistentState_effect, try_catch, mbind, Exc_bind.
  rewrite Hs, Hw. split; [done|].
  unfold setItem in Hw.
  destruct (accessible sto) eqn:Hacc; [|done].
  destruct (_ <=? _)%N; [|done].
  injection Hw as <-. simpl. by rewrite Hacc.
Qed.

Lemma effect_swallowed key v sto :
  (∃ err, JSON_stringify v = Throw err) ∨
  (∃ text err, JSON_stringify v = Ok text ∧ setItem sto key text = Throw err) →
  usePersistentState_effect key v sto = Ok sto.
Proof.
  unfold usePersistentState_effect, try_catch, mbind, Exc_bind.
  intros [(err & ->)|(text & err & -> & ->)]; done.
Qed.

Lemma effect_never_throws key v sto :
  ∃ sto', usePersistentState_effect key v sto = Ok sto'.
Proof.
  unfold usePersistentState_effect, try_catch, mbind, Exc_bind.
  destruct (JSON_stringify v) as [text|]; [|by eexists].
  destruct (setItem sto key text); by eexists.
Qed.

Lemma setItem_succeeds sto key text :
  accessible sto = true →
  (N.of_nat (used (<[key := text]> (items sto))) <= quota sto)%N →
  setItem sto key text = Ok (with_items (<[key := text]> (items sto)) sto).
Proof.
  intros Hacc Hq. unfold setItem. rewrite Hacc.
  apply N.leb_le in Hq. simpl. rewrite Hq. done.
Qed.

(** The effects of a first render never throw either. *)
Lemma save_config_never_throws c sto : ∃ sto', save_config c sto = Ok sto'.
Proof.
  unfold save_config.
  destruct (effect_never_throws "model" (cfg_model c) sto) as [s1 ->].
  destruct (effect_never_throws "userRules" (cfg_userRules c) s1) as [s2 H2].
  destruct (effect_never_throws "stripDefaults" (cfg_stripDefaults c) s2) as [s3 H3].
  destruct (effect_never_throws "temperature" (cfg_temperature c) s3) as [s4 H4].
  simpl. rewrite H2. simpl. rewrite H3. simpl. rewrite H4. simpl.
  apply effect_never_throws.
Qed.

(** Over a store without entries the first render starts from the
    documented defaults. *)
Lemma load_config_empty sto :
  items sto = ∅ → load_config sto = Ok default_config.
Proof.
  intros Hempty. rewrite load_config_cells. unfold default_config.
  assert (Hu : ∀ key, unusable key sto).
  { intros key. right. left. rewrite Hempty. apply lookup_empty. }
  by rewrite !cell_unusable by apply Hu.
Qed.

Lemma cell_starts_from key initial sto :
  starts_from key initial sto (cell key initial sto).
Proof.
  destruct (decodes_or_unusable key sto) as [[v Hv]|Hu].
  - left. by rewrite (cell_decodes key initial sto v Hv).
  - right. split; [exact Hu|by apply cell_unusable].
Qed.

End StoreFacts.

(** ** The streaming merge *)

Lemma append_nil_r (s : string) : s +:+ "" = s.
Proof.
  induction s as [|x s IH]; [done|].
  change (String x (s +:+ "") = String x s). by rewrite IH.
Qed.

Lemma append_assoc (a b c : string) : (a +:+ b) +:+ c = a +:+ b +:+ c.
Proof.
  induction a as [|x a IH]; [done|].
  change (String x ((a +:+ b) +:+ c) = String x (a +:+ b +:+ c)). by rewrite IH.
Qed.

Lemma js_index_last {A} (pre : list A) (x : A) :
  js_index (pre ++ [x]) (Z.of_nat (length (pre ++ [x])) - 1) = Some x.
Proof.
  unfold js_index. rewrite length_app. simpl.
  destruct (_ <? 0)%Z eqn:Hneg; [apply Z.ltb_lt in Hneg; lia|].
  replace (Z.to_nat _) with (length pre) by lia.
  rewrite lookup_app_r by lia. by rewrite Nat.sub_diag.
Qed.

Lemma js_index_last_eq {A} (a : list A) :
  js_index a (Z.of_nat (length a) - 1) = last a.
Proof.
  destruct a as [|x a] using rev_ind; [done|].
  rewrite js_index_last. by rewrite last_snoc.
Qed.

Lemma merge_delta_assistant d pre c :
  merge_delta d (pre ++ [{| msg_role := assistant; content := c |}]) =
  pre ++ [{| msg_role := assistant; content := c +:+ d |}].
Proof.
  unfold merge_delta. rewrite js_index_last. simpl.
  rewrite length_app. simpl.
  replace (Z.to_nat _) with (length pre + 0)%nat by lia.
  by rewrite insert_app_r.
Qed.

Lemma merge_delta_not_assistant d prev :
  (∀ m, last prev = Some m → msg_role m ≠ assistant) →
  merge_delta d prev = prev.
Proof.
  intros Hlast. unfold merge_delta. rewrite js_index_last_eq.
  destruct (last prev) as [m|]; [|done].
  case_bool_decide; [|done]. by destruct (Hlast m).
Qed.

Lemma merge_delta_length d prev : length (merge_delta d prev) = length prev.
Proof.
  unfold merge_delta. destruct (js_index _ _); [|done].
  case_bool_decide; [|done]. apply length_insert.
Qed.

Lemma merge_delta_frame d prev i :
  (S i < length prev)%nat → merge_delta d prev !! i = prev !! i.
Proof.
  intros Hi. unfold merge_delta. destruct (js_index _ _); [|done].
  case_bool_decide; [|done]. apply list_lookup_insert_ne. lia.
Qed.

Lemma on_chunk_empty c sw : chunk_delta c = "" → on_chunk c sw = sw.
Proof. intros Hd. unfold on_chunk. by rewrite Hd. Qed.

Lemma on_chunk_world c sw : snd (on_chunk c sw) = snd sw.
Proof. unfold on_chunk. by destruct (truthy _). Qed.

Lemma consume_world chunks sw : snd (consume chunks sw) = snd sw.
Proof.
  revert sw. induction chunks as [|c chunks IH]; intros sw; [done|].
  simpl. rewrite IH. apply on_chunk_world.
Qed.

Lemma on_chunk_generating c sw :
  generating (fst (on_chunk c sw)) = generating (fst sw).
Proof. unfold on_chunk. by destruct (truthy _). Qed.

Lemma consume_generating chunks sw :
  generating (fst (consume chunks sw)) = generating (fst sw).
Proof.
  revert sw. induction chunks as [|c chunks IH]; intros sw; [done|].
  simpl. rewrite IH. apply on_chunk_generating.
Qed.

(** The loop appends the non-empty deltas, in order, to the content of a
    last message that is the assistant's. *)
Lemma consume_assistant chunks : ∀ sw pre c0,
  messages (fst sw) = pre ++ [{| msg_role := assistant; content := c0 |}] →
  messages (fst (consume chunks sw)) =
  pre ++ [{| msg_role := assistant; content := c0 +:+ merged chunks |}].
Proof.
  induction chunks as [|c chunks IH]; intros sw pre c0 Hm.
  - simpl. unfold merged. simpl. by rewrite append_nil_r.
  - simpl. unfold merged. simpl.
    destruct (truthy (chunk_delta c)) eqn:Hd.
    + simpl. rewrite <- append_assoc. apply IH.
      unfold on_chunk. rewrite Hd. simpl. rewrite Hm.
      apply merge_delta_assistant.
    + apply IH. unfold on_chunk. by rewrite Hd.
Qed.

(** Chunks merged into an empty history leave it empty. *)
Lemma consume_empty chunks : ∀ sw,
  messages (fst sw) = [] → messages (fst (consume chunks sw)) = [].
Proof.
  induction chunks as [|c chunks IH]; intros sw Hm; [done|].
  simpl. apply IH. unfold on_chunk.
  destruct (truthy _); [|done]. simpl. by rewrite Hm.
Qed.

(** ** [initEngine], [run] and [send] *)

Lemma initEngine_frame r load sw :
  messages (fst (initEngine r load sw)) = messages (fst sw) ∧
  generating (fst (initEngine r load sw)) = generating (fst sw) ∧
  input (fst (initEngine r load sw)) = input (fst sw) ∧
  requests (snd (initEngine r load sw)) = requests (snd sw) ∧
  controllers (snd (initEngine r load sw)) = controllers (snd sw) ∧
  abortRef (snd (initEngine r load sw)) = abortRef (snd sw).
Proof.
  destruct sw as [s w]. unfold initEngine.
  destruct (_ || _); [done|]. by destruct load.
Qed.


Lemma send_with_engine r e load rep sw :
  engine r = Some e → send r load rep sw = send_ready r e rep sw.
Proof. intros He. unfold send. by rewrite He. Qed.

Lemma run_catch_frame err sw :
  fst (run_catch err sw) = fst sw ∧
  requests (snd (run_catch err sw)) = requests (snd sw) ∧
  controllers (snd (run_catch err sw)) = controllers (snd sw) ∧
  abortRef (snd (run_catch err sw)) = abortRef (snd sw).
Proof. unfold run_catch. by case_bool_decide. Qed.

Lemma run_stream_frame rep sw :
  requests (snd (run_stream rep sw)) = requests (snd sw) ∧
  generating (fst (run_stream rep sw)) = generating (fst sw).
Proof.
  destruct rep as [err|chunks [|err]]; simpl.
  - destruct (run_catch_frame err sw) as (-> & -> & _). done.
  - by rewrite consume_world, consume_generating.
  - destruct (run_catch_frame err (consume chunks sw)) as (-> & -> & _).
    by rewrite consume_world, consume_generating.
Qed.

Lemma run_start_messages r e text sw :
  messages (fst (run_start r e text sw)) =
  (messages (fst sw) ++ [{| msg_role := user; content := text |}]) ++
  [{| msg_role := assistant; content := "" |}].
Proof. destruct sw as [s w]. simpl. by rewrite <- app_assoc. Qed.

Lemma run_start_requests r e text sw :
  requests (snd (run_start r e text sw)) =
  requests (snd sw) ++
  [{| req_engine := e; req_model := model r;
      req_messages := outbound r {| msg_role := user; content := text |};
      req_temperature := temperature r; req_max_tokens := maxTokens r;
      req_stream := true; req_signal := length (controllers (snd sw)) |}].
Proof. by destruct sw as [s w]. Qed.

Lemma run_messages r e text chunks fin sw :
  messages (fst (run r e text (Streams chunks fin) sw)) =
  messages (fst sw) ++
  [{| msg_role := user; content := text |};
   {| msg_role := assistant; content := merged chunks |}].
Proof.
  unfold run, run_finally. simpl.
  assert (Hc : messages (fst (consume chunks (run_start r e text sw))) =
               (messages (fst sw) ++ [{| msg_role := user; content := text |}]) ++
               [{| msg_role := assistant; content := "" +:+ merged chunks |}]).
  { apply consume_assistant, run_start_messages. }
  simpl in Hc. rewrite <- app_assoc in Hc. simpl in Hc.
  destruct fin as [|err]; [exact Hc|].
  destruct (run_catch_frame err (consume chunks (run_start r e text sw))) as (-> & _).
  exact Hc.
Qed.


Lemma send_ready_requests r e rep sw :
  truthy (trim (input r)) = true →
  requests (snd (send_ready r e rep sw)) =
  requests (snd sw) ++
  [{| req_engine := e; req_model := model r;
      req_messages := outbound r {| msg_role := user; content := trim (input r) |};
      req_temperature := temperature r; req_max_tokens := maxTokens r;
      req_stream := true; req_signal := length (controllers (snd sw)) |}].
Proof.
  intros Ht. unfold send_ready. rewrite Ht. simpl.
  destruct (run_stream_frame rep (run_start r e (trim (input r)) sw)) as [-> _].
  apply run_start_requests.
Qed.

Lemma to_param_not_system (l : list Message) :
  Forall (fun p => param_role_of p ≠ system) (map to_param l).
Proof. induction l; constructor; done. Qed.

(** [stop] aborts the controller whose signal the running request holds,
    and empties [abortRef]. *)
Lemma stop_aborts_request_signal r e text sw :
  ∃ req,
    last (requests (snd (run_start r e text sw))) = Some req ∧
    controllers (snd (run_start r e text sw)) !! req_signal req = Some false ∧
    controllers (snd (stop (run_start r e text sw))) !! req_signal req = Some true ∧
    abortRef (snd (stop (run_start r e text sw))) = None.
Proof.
  destruct sw as [s w]. eexists. simpl.
  split; [apply last_snoc|]. simpl. split_and!.
  - rewrite lookup_app_r by lia. by rewrite Nat.sub_diag.
  - apply list_lookup_insert_eq. rewrite length_app. simpl. lia.
  - done.
Qed.

(** Two runs of the page. The engine is loaded, the rules are
    [Be terse.], the user types [hi] and presses Enter; the engine
    streams [Hi] and [ there], with two empty chunks in between. *)
Example run_policy_and_two_chunks :
  let sw := act InputEnter (LoadResolves Run.llama)
              (Streams Run.two_chunks StreamCompletes) (Run.ready, initial_world) in
  messages (fst sw) =
    [{| msg_role := user; content := "hi" |};
     {| msg_role := assistant; content := "Hi there" |}] ∧
  map req_messages (requests (snd sw)) =
    [[{| param_role_of := system; param_content := "Be terse." |};
      {| param_role_of := chat user; param_content := "hi" |}]] ∧
  generating (fst sw) = false ∧ input (fst sw) = "" ∧ alerts (snd sw) = [].
Proof. repeat split. Qed.

(** The engine streams [partial] and then fails. *)
Example run_partial_then_failure :
  let sw := act InputEnter (LoadResolves Run.llama)
              (Streams [text_chunk "partial"] (StreamThrows Run.type_error))
              (Run.ready, initial_world) in
  last (messages (fst sw)) = Some {| msg_role := assistant; content := "partial" |} ∧
  generating (fst sw) = false ∧
  alerts (snd sw) = ["Generation failed. See console for details."].
Proof. repeat split. Qed.

(** * The claims *)




(** C2. When [send] goes through (an engine in its render, an input that
    is not blank) it hands exactly one request to the engine. With
    [stripDefaults] set, the messages of that request are one system
    message whose content is [userRules] trimmed, followed by the
    messages of the history, each with its own role and content and in
    their order, and by the new user message with the trimmed input; the
    system message is the only one. With [stripDefaults] unset they are
    the messages of the history and the new user message only, with no
    system message among them. The history is the one of the render
    [send] belongs to, which for a call from the page is the current
    one. *)
Theorem C2_outbound_policy_message
    (r : State) (e : MLCEngine) (load : load_outcome) (rep : reply) (sw : Sys) :
  engine r = Some e →
  truthy (trim (input r)) = true →
  ∃ req,
    requests (snd (send r load rep sw)) = requests (snd sw) ++ [req] ∧
    (stripDefaults r = true →
     req_messages req =
       {| param_role_of := system; param_content := trim (userRules r) |} ::
       map (fun m => {| param_role_of := chat (msg_role m);
                        param_content := content m |}) (messages r) ++
       [{| param_role_of := chat user; param_content := trim (input r) |}] ∧
     Forall (fun p => param_role_of p ≠ system) (tail (req_messages req))) ∧
    (stripDefaults r = false →
     req_messages req =
       map (fun m => {| param_role_of := chat (msg_role m);
                        param_content := content m |}) (messages r) ++
       [{| param_role_of := chat user; param_content := trim (input r) |}] ∧
     Forall (fun p => param_role_of p ≠ system) (req_messages req)).
Proof.
  intros He Ht. rewrite (send_with_engine r e) by done.
  eexists. split; [by apply send_ready_requests|].
  simpl. unfold outbound. rewrite map_app. simpl.
  assert (Hplain : Forall (fun p => param_role_of p ≠ system)
                     (map to_param (messages r) ++
                      [{| param_role_of := chat user;
                          param_content := trim (input r) |}])).
  { apply Forall_app. split; [apply to_param_not_system|].
    constructor; [done|constructor]. }
  split; intros ->; simpl; (split; [done|exact Hplain]).
Qed.

Lemma C2_witness :
  (∃ req,
     requests (snd (send Run.second_turn (LoadResolves Run.llama)
                      (Streams Run.two_chunks StreamCompletes)
                      (Run.second_turn, initial_world))) = [] ++ [req] ∧
     req_messages req =
       [{| param_role_of := system; param_content := "Be terse." |};
        {| param_role_of := chat user; param_content := "hi" |};
        {| param_role_of := chat assistant; param_content := "Hi there" |};
        {| param_role_of := chat user; param_content := "why?" |}]) ∧
  (∃ req,
     requests (snd (send Run.second_turn_plain (LoadResolves Run.llama)
                      (Streams Run.two_chunks StreamCompletes)
                      (Run.second_turn_plain, initial_world))) = [] ++ [req] ∧
     req_messages req =
       [{| param_role_of := chat user; param_content := "hi" |};
        {| param_role_of := chat assistant; param_content := "Hi there" |};
        {| param_role_of := chat user; param_content := "why?" |}]).
Proof.
  split.
  - destruct (C2_outbound_policy_message Run.second_turn Run.llama
                (LoadResolves Run.llama) (Streams Run.two_chunks StreamCompletes)
                (Run.second_turn, initial_world) eq_refl eq_refl)
      as (req & Hreq & Hon & _).
    exists req. split; [exact Hreq|].
    destruct (Hon eq_refl) as [Hm _]. exact Hm.
  - destruct (C2_outbound_policy_message Run.second_turn_plain Run.llama
                (LoadResolves Run.llama) (Streams Run.two_chunks StreamCompletes)
                (Run.second_turn_plain, initial_world) eq_refl eq_refl)
      as (req & Hreq & _ & Hoff).
    exists req. split; [exact Hreq|].
    destruct (Hoff eq_refl) as [Hm _]. exact Hm.
Defined.

(** C3. Whatever the chunks of the stream and however it ends, [run]
    leaves as last message the assistant's, whose content is the
    concatenation of the non-empty deltas in the order of arrival, after
    the user message; and a chunk whose delta is empty changes neither
    the cells nor the world. *)
Theorem C3_stream_merge_in_arrival_order
    (r : State) (e : MLCEngine) (text : string) (chunks : list Chunk)
    (fin : stream_end) (sw : Sys) (c : Chunk) (sw' : Sys) :
  messages (fst (run r e text (Streams chunks fin) sw)) =
    messages (fst sw) ++
    [{| msg_role := user; content := text |};
     {| msg_role := assistant;
        content := concat_all (List.filter truthy (map chunk_delta chunks)) |}] ∧
  (chunk_delta c = "" → on_chunk c sw' = sw').
Proof.
  split; [apply run_messages|apply on_chunk_empty].
Qed.

Lemma C3_witness :
  messages (fst (run Run.ready Run.llama "hi"
                   (Streams Run.two_chunks StreamCompletes)
                   (Run.ready, initial_world))) =
    [{| msg_role := user; content := "hi" |};
     {| msg_role := assistant; content := "Hi there" |}] ∧
  on_chunk {| choices := None |} Run.streaming = Run.streaming.
Proof.
  destruct (C3_stream_merge_in_arrival_order Run.ready Run.llama "hi" Run.two_chunks
              StreamCompletes (Run.ready, initial_world)
              {| choices := None |} Run.streaming) as [Hm He].
  split; [exact Hm|exact (He eq_refl)].
Defined.

(** C4. When the stream throws after some chunks, the merged content
    stays in the history and [generating] is cleared, so that the text
    input is enabled again. If the thrown value is not an [AbortError],
    it is reported once: one alert and one console entry are added. If it
    is an [AbortError], nothing is reported. *)
Theorem C4_stream_error_and_cancellation
    (r : State) (e : MLCEngine) (text : string) (chunks : list Chunk)
    (err : thrown) (sw : Sys) :
  messages (fst (run r e text (Streams chunks (StreamThrows err)) sw)) =
    messages (fst sw) ++
    [{| msg_role := user; content := text |};
     {| msg_role := assistant; content := merged chunks |}] ∧
  generating (fst (run r e text (Streams chunks (StreamThrows err)) sw)) = false ∧
  enabled (fst (run r e text (Streams chunks (StreamThrows err)) sw)) InputEnter = true ∧
  (err_name err ≠ Some "AbortError" →
   alerts (snd (run r e text (Streams chunks (StreamThrows err)) sw)) =
     alerts (snd sw) ++ ["Generation failed. See console for details."] ∧
   console (snd (run r e text (Streams chunks (StreamThrows err)) sw)) =
     console (snd sw) ++ [err]) ∧
  (err_name err = Some "AbortError" →
   alerts (snd (run r e text (Streams chunks (StreamThrows err)) sw)) = alerts (snd sw) ∧
   console (snd (run r e text (Streams chunks (StreamThrows err)) sw)) = console (snd sw)).
Proof.
  split; [apply run_messages|].
  split; [done|]. split; [done|].
  assert (Hw : snd (consume chunks (run_start r e text sw)) = snd (run_start r e text sw))
    by apply consume_world.
  unfold run, run_finally, run_stream, run_catch. simpl.
  split; intros Hname; case_bool_decide; try done; simpl; rewrite Hw;
    by destruct sw.
Qed.

Lemma C4_witness :
  (alerts (snd (run Run.ready Run.llama "hi"
                  (Streams [text_chunk "partial"] (StreamThrows Run.type_error))
                  (Run.ready, initial_world))) =
     ["Generation failed. See console for details."] ∧
   messages (fst (run Run.ready Run.llama "hi"
                    (Streams [text_chunk "partial"] (StreamThrows Run.type_error))
                    (Run.ready, initial_world))) =
     [{| msg_role := user; content := "hi" |};
      {| msg_role := assistant; content := "partial" |}]) ∧
  (alerts (snd (run Run.ready Run.llama "hi"
                  (Streams [text_chunk "partial"] (StreamThrows Run.abort_error))
                  (Run.ready, initial_world))) = [] ∧
   messages (fst (run Run.ready Run.llama "hi"
                    (Streams [text_chunk "partial"] (StreamThrows Run.abort_error))
                    (Run.ready, initial_world))) =
     [{| msg_role := user; content := "hi" |};
      {| msg_role := assistant; content := "partial" |}]).
Proof.
  split.
  - destruct (C4_stream_error_and_cancellation Run.ready Run.llama "hi"
                [text_chunk "partial"] Run.type_error (Run.ready, initial_world))
      as (Hm & _ & _ & Hreport & _).
    split; [|exact Hm].
    refine (proj1 (Hreport _)). discriminate.
  - destruct (C4_stream_error_and_cancellation Run.ready Run.llama "hi"
                [text_chunk "partial"] Run.abort_error (Run.ready, initial_world))
      as (Hm & _ & _ & _ & Hquiet).
    split; [|exact Hm].
    exact (proj1 (Hquiet eq_refl)).
Defined.

(** C5. Reading a cell never raises: the initialiser of
    [usePersistentState] always returns a value, and that value is the
    given default when the key is missing, when the stored text is not
    JSON and when the storage cannot be read. The effect serialises the
    cell and writes it under the key; when the serialisation or the write
    throws, the exception is swallowed and the store is left as it was.
    The value read for a key depends on the entry of that key only:
    overwriting the entry of another key with any text changes nothing. *)
Theorem C5_get_never_raises_set_best_effort
    {J : JSON} (key : string) (initial : jsval) (sto : Storage) :
  (∃ v, usePersistentState_init key initial sto = Ok v) ∧
  (items sto !! key = None →
   usePersistentState_init key initial sto = Ok initial) ∧
  (∀ raw err, items sto !! key = Some raw → JSON_parse raw = Throw err →
   usePersistentState_init key initial sto = Ok initial) ∧
  (accessible sto = false →
   usePersistentState_init key initial sto = Ok initial) ∧
  (∀ v text sto', JSON_stringify v = Ok text → setItem sto key text = Ok sto' →
   usePersistentState_effect key v sto = Ok sto' ∧
   items sto' = <[key := text]> (items sto)) ∧
  (∀ v, (∃ err, JSON_stringify v = Throw err) ∨
        (∃ text err, JSON_stringify v = Ok text ∧ setItem sto key text = Throw err) →
   usePersistentState_effect key v sto = Ok sto) ∧
  (∀ v, ∃ sto', usePersistentState_effect key v sto = Ok sto') ∧
  (∀ other raw, other ≠ key →
   usePersistentState_init key initial
     (with_items (<[other := raw]> (items sto)) sto) =
   usePersistentState_init key initial sto) ∧
  (∀ other raw, ∃ c c',
     load_config sto = Ok c ∧
     load_config (with_items (<[other := raw]> (items sto)) sto) = Ok c' ∧
     (other ≠ "model" → cfg_model c' = cfg_model c) ∧
     (other ≠ "userRules" → cfg_userRules c' = cfg_userRules c) ∧
     (other ≠ "stripDefaults" → cfg_stripDefaults c' = cfg_stripDefaults c) ∧
     (other ≠ "temperature" → cfg_temperature c' = cfg_temperature c) ∧
     (other ≠ "maxTokens" → cfg_maxTokens c' = cfg_maxTokens c)).
Proof.
  split_and!.
  - eexists. apply usePersistentState_init_cell.
  - intros Hnone. rewrite usePersistentState_init_cell.
    f_equal. apply cell_unusable. right. by left.
  - intros raw err Hraw Herr. rewrite usePersistentState_init_cell.
    f_equal. apply cell_unusable. do 3 right. by exists raw, err.
  - intros Hacc. rewrite usePersistentState_init_cell.
    f_equal. apply cell_unusable. by left.
  - intros v text sto' Hprint Hset.
    destruct (effect_written key v sto text sto' Hprint Hset) as (? & ? & _).
    done.
  - intros v. apply effect_swallowed.
  - intros v. apply effect_never_throws.
  - intros other raw Hne. rewrite !usePersistentState_init_cell.
    f_equal. apply cell_own_entry. by apply lookup_insert_ne.
  - intros other raw. do 2 eexists.
    split; [apply load_config_cells|]. split; [apply load_config_cells|].
    simpl. split_and!; intros Hne; apply cell_own_entry; by apply lookup_insert_ne.
Qed.

(** A corrupt [maxTokens] entry reads as the default, a blocked store
    likewise, and a write into the full store is dropped without an
    exception. *)
Lemma C5_witness :
  @usePersistentState_init ScalarJSON.instance "maxTokens" (JNum DEFAULT_MAX_TOKENS)
    Run.corrupt_store = Ok (JNum DEFAULT_MAX_TOKENS) ∧
  @usePersistentState_init ScalarJSON.instance "temperature" (JNum DEFAULT_TEMPERATURE)
    Run.blocked_store = Ok (JNum DEFAULT_TEMPERATURE) ∧
  @usePersistentState_effect ScalarJSON.instance "temperature" (JNum (Dec 125 2))
    Run.full_store = Ok Run.full_store.
Proof.
  split; [|split].
  - destruct (@C5_get_never_raises_set_best_effort ScalarJSON.instance
                "maxTokens" (JNum DEFAULT_MAX_TOKENS) Run.corrupt_store)
      as (_ & _ & Hbad & _).
    apply (Hbad "{oops" (ThrownError "SyntaxError")); reflexivity.
  - destruct (@C5_get_never_raises_set_best_effort ScalarJSON.instance
                "temperature" (JNum DEFAULT_TEMPERATURE) Run.blocked_store)
      as (_ & _ & _ & Hblocked & _).
    apply Hblocked. reflexivity.
  - destruct (@C5_get_never_raises_set_best_effort ScalarJSON.instance
                "temperature" (JNum DEFAULT_TEMPERATURE) Run.full_store)
      as (_ & _ & _ & _ & _ & Hswallow & _).
    apply Hswallow. right.
    exists "1.25", (ThrownError "QuotaExceededError"). split; reflexivity.
Defined.

(** C6. Setting the temperature to 1.2 runs the effect of the
    [temperature] cell; when the store takes the write and [JSON] reads
    back what it wrote for 1.2, a first render over the resulting store
    starts with temperature 1.2. If the [maxTokens] entry of that store is
    then replaced by text that is not JSON, a first render starts with
    [maxTokens] 512 and still with temperature 1.2. *)
Theorem C6_temperature_round_trip_maxTokens_default
    {J : JSON} (load : load_outcome) (rep : reply) (sw : Sys)
    (sto : Storage) (text raw : string) (err : thrown) :
  accessible sto = true →
  JSON_stringify (JNum (Dec 12 1)) = Ok text →
  truthy text = true →
  JSON_parse text = Ok (JNum (Dec 12 1)) →
  (N.of_nat (used (<["temperature" := text]> (items sto))) <= quota sto)%N →
  JSON_parse raw = Throw err →
  ∃ sto1,
    usePersistentState_effect "temperature"
      (JNum (temperature (fst (act (TemperatureChange (Dec 12 1)) load rep sw))))
      sto = Ok sto1 ∧
    (∃ c, load_config sto1 = Ok c ∧ cfg_temperature c = JNum (Dec 12 1)) ∧
    (∃ c, load_config (with_items (<["maxTokens" := raw]> (items sto1)) sto1) = Ok c ∧
          cfg_maxTokens c = JNum (Dec 512 0) ∧
          cfg_temperature c = JNum (Dec 12 1)).
Proof.
  intros Hacc Hprint Htruthy Hread Hquota Hbad.
  pose proof (setItem_succeeds sto "temperature" text Hacc Hquota) as Hset.
  destruct (effect_written "temperature" (JNum (Dec 12 1)) sto text _ Hprint Hset)
    as (Heff & Hitems & _).
  eexists. split; [exact Heff|].
  assert (Hdec : ∀ m, m !! "temperature" = Some text →
            decodes "temperature" (with_items m sto) (JNum (Dec 12 1))).
  { intros m Hm. split; [exact Hacc|]. by exists text. }
  split.
  - eexists. split; [apply load_config_cells|]. simpl.
    apply cell_decodes, Hdec, lookup_insert_eq.
  - eexists. split; [apply load_config_cells|]. simpl. split.
    + apply cell_unusable. do 3 right. exists raw, err.
      split; [apply lookup_insert_eq|exact Hbad].
    + apply cell_decodes.
      apply (Hdec (<["maxTokens" := raw]> (<["temperature" := text]> (items sto)))).
      rewrite lookup_insert_ne by done. apply lookup_insert_eq.
Qed.

Lemma C6_witness :
  ∃ sto1,
    @usePersistentState_effect ScalarJSON.instance "temperature"
      (JNum (temperature (fst (act (TemperatureChange (Dec 12 1))
                                 (LoadResolves Run.llama) (Streams [] StreamCompletes)
                                 (Run.ready, initial_world)))))
      Run.empty_store = Ok sto1 ∧
    (∃ c, @load_config ScalarJSON.instance sto1 = Ok c ∧
          cfg_temperature c = JNum (Dec 12 1)) ∧
    (∃ c, @load_config ScalarJSON.instance
            (with_items (<["maxTokens" := "{oops"]> (items sto1)) sto1) = Ok c ∧
          cfg_maxTokens c = JNum (Dec 512 0) ∧
          cfg_temperature c = JNum (Dec 12 1)).
Proof.
  apply (@C6_temperature_round_trip_maxTokens_default ScalarJSON.instance
           (LoadResolves Run.llama) (Streams [] StreamCompletes)
           (Run.ready, initial_world) Run.empty_store
           "1.2" "{oops" (ThrownError "SyntaxError"));
    try reflexivity.
  vm_compute. discriminate.
Defined.

(** C7 (as stated, refuted). From cells within the announced ranges,
    emptying the Max tokens control stores [parseInt("0", 10)], that is 0;
    and a first render over a store whose entries decode to 5 and 7
    starts with temperature 5 and [maxTokens] 7. *)
Lemma C7_out_of_range_counterexample :
  valid_temperature (temperature Run.ready) = true ∧
  valid_maxTokens (maxTokens Run.ready) = true ∧
  maxTokens (fst (act (MaxTokensChange "") (LoadResolves Run.llama)
                    (Streams [] StreamCompletes) (Run.ready, initial_world))) = Dec 0 0 ∧
  valid_maxTokens (Dec 0 0) = false ∧
  (∃ c, @load_config ScalarJSON.instance Run.out_of_range_store = Ok c ∧
        cfg_temperature c = JNum (Dec 5 0) ∧ cfg_maxTokens c = JNum (Dec 7 0)) ∧
  valid_temperature (Dec 5 0) = false ∧
  valid_maxTokens (Dec 7 0) = false.
Proof.
  split_and!; try reflexivity.
  eexists. split; [apply load_config_cells|]. split; reflexivity.
Qed.

(** C7 (amended). A first render always gets a complete configuration,
    cell by cell: each of the five cells starts from the decoded value of
    its own entry when the storage can be read and the entry is a
    non-empty text that [JSON.parse] accepts, and from its documented
    default otherwise. The decoded value is taken as it is, and the
    Temperature and Max tokens controls store what they parsed. *)
Theorem C7_cells_decoded_or_default
    {J : JSON} (sto : Storage) (load : load_outcome) (rep : reply) (sw : Sys)
    (parsed : number) (value : string) :
  (∃ c, load_config sto = Ok c ∧
        starts_from "model" (JStr DEFAULT_MODEL) sto (cfg_model c) ∧
        starts_from "userRules" (JStr DEFAULT_RULES) sto (cfg_userRules c) ∧
        starts_from "stripDefaults" (JBool true) sto (cfg_stripDefaults c) ∧
        starts_from "temperature" (JNum (Dec 6 1)) sto (cfg_temperature c) ∧
        starts_from "maxTokens" (JNum (Dec 512 0)) sto (cfg_maxTokens c)) ∧
  temperature (fst (act (TemperatureChange parsed) load rep sw)) = parsed ∧
  maxTokens (fst (act (MaxTokensChange value) load rep sw)) =
    parseInt10 (if truthy value then value else "0").
Proof.
  split; [|done].
  eexists. split; [apply load_config_cells|].
  simpl. split_and!; apply cell_starts_from.
Qed.

(** C8 (the code at the failing input). The engine is not in the render,
    the user has typed [hi] and the load succeeds: [send] stores the
    engine and returns; no message is appended, no request is made and
    the input keeps its text. *)
Theorem C8_send_returns_after_successful_load :
  engine (fst (send Run.not_ready (LoadResolves Run.llama)
                 (Streams Run.two_chunks StreamCompletes)
                 (Run.not_ready, initial_world))) = Some Run.llama ∧
  messages (fst (send Run.not_ready (LoadResolves Run.llama)
                   (Streams Run.two_chunks StreamCompletes)
                   (Run.not_ready, initial_world))) = [] ∧
  requests (snd (send Run.not_ready (LoadResolves Run.llama)
                   (Streams Run.two_chunks StreamCompletes)
                   (Run.not_ready, initial_world))) = [] ∧
  input (fst (send Run.not_ready (LoadResolves Run.llama)
                (Streams Run.two_chunks StreamCompletes)
                (Run.not_ready, initial_world))) = " hi ".
Proof. repeat split. Qed.

(** C9. The Clear button is the only caller of [resetChat]. While a
    request is active ([generating] is set) the button is disabled and
    the reset is rejected: the state stays as it is, and the stream goes
    on merging into the history it started with. Otherwise the reset
    runs: it empties the history and changes no other cell and nothing
    in the world. [resetChat] never cancels and needs not: chunks merged
    into a history it has emptied leave it empty. *)
Theorem C9_reset_clears_history_rejected_while_active
    (sw : Sys) (load : load_outcome) (rep : reply) (chunks : list Chunk) :
  (generating (fst sw) = true → act ClearButton load rep sw = sw) ∧
  (generating (fst sw) = false →
   act ClearButton load rep sw = resetChat sw ∧
   messages (fst (act ClearButton load rep sw)) = []) ∧
  (messages (fst (resetChat sw)) = [] ∧
   engine (fst (resetChat sw)) = engine (fst sw) ∧
   loadingModel (fst (resetChat sw)) = loadingModel (fst sw) ∧
   model (fst (resetChat sw)) = model (fst sw) ∧
   userRules (fst (resetChat sw)) = userRules (fst sw) ∧
   stripDefaults (fst (resetChat sw)) = stripDefaults (fst sw) ∧
   temperature (fst (resetChat sw)) = temperature (fst sw) ∧
   maxTokens (fst (resetChat sw)) = maxTokens (fst sw) ∧
   input (fst (resetChat sw)) = input (fst sw) ∧
   generating (fst (resetChat sw)) = generating (fst sw) ∧
   snd (resetChat sw) = snd sw) ∧
  messages (fst (consume chunks (resetChat sw))) = [].
Proof.
  split_and!; try done.
  - intros Hg. unfold act. simpl. by rewrite Hg.
  - intros Hg. unfold act. simpl. by rewrite Hg.
  - by apply consume_empty.
Qed.

Lemma C9_witness :
  act ClearButton (LoadResolves Run.llama) (Streams [] StreamCompletes)
    Run.streaming = Run.streaming ∧
  messages (fst (act ClearButton (LoadResolves Run.llama) (Streams [] StreamCompletes)
                   (run Run.ready Run.llama "hi" (Streams Run.two_chunks StreamCompletes)
                      (Run.ready, initial_world)))) = [].
Proof.
  split.
  - destruct (C9_reset_clears_history_rejected_while_active Run.streaming
                (LoadResolves Run.llama) (Streams [] StreamCompletes) [])
      as (Hrejected & _).
    exact (Hrejected eq_refl).
  - destruct (C9_reset_clears_history_rejected_while_active
                (run Run.ready Run.llama "hi" (Streams Run.two_chunks StreamCompletes)
                   (Run.ready, initial_world))
                (LoadResolves Run.llama) (Streams [] StreamCompletes) [])
      as (_ & Hruns & _).
    exact (proj2 (Hruns eq_refl)).
Defined.

(** C10. One turn of the loop keeps the length of the history and every
    message but the last; when the history is empty or its last message
    is not the assistant's, the history is left as it is. The turn
    returns a value in every case: nothing is thrown. *)
Theorem C10_chunk_touches_last_message_only
    (c : Chunk) (sw : Sys) (i : nat) :
  length (messages (fst (on_chunk c sw))) = length (messages (fst sw)) ∧
  (S i < length (messages (fst sw)) →
   messages (fst (on_chunk c sw)) !! i = messages (fst sw) !! i) ∧
  ((∀ m, last (messages (fst sw)) = Some m → msg_role m ≠ assistant) →
   messages (fst (on_chunk c sw)) = messages (fst sw)).
Proof.
  unfold on_chunk. destruct (truthy (chunk_delta c)); [simpl|done].
  split; [apply merge_delta_length|].
  split; [apply merge_delta_frame|apply merge_delta_not_assistant].
Qed.

Lemma C10_witness :
  (messages (fst (on_chunk (text_chunk " there") Run.streaming)) !! 0%nat =
   Some {| msg_role := user; content := "hi" |}) ∧
  messages (fst (on_chunk (text_chunk "late") (resetChat Run.streaming))) = [] ∧
  messages (fst (on_chunk (text_chunk "late")
                   (setMessages (fun _ => [{| msg_role := user; content := "hi" |}])
                      Run.ready, initial_world))) =
    [{| msg_role := user; content := "hi" |}].
Proof.
  split_and!.
  - destruct (C10_chunk_touches_last_message_only (text_chunk " there")
                Run.streaming 0) as (_ & Hframe & _).
    rewrite Hframe; [reflexivity|simpl; lia].
  - destruct (C10_chunk_touches_last_message_only (text_chunk "late")
                (resetChat Run.streaming) 0) as (_ & _ & Hsame).
    rewrite Hsame; [reflexivity|]. intros m Hm. discriminate Hm.
  - destruct (C10_chunk_touches_last_message_only (text_chunk "late")
                (setMessages (fun _ => [{| msg_role := user; content := "hi" |}])
                   Run.ready, initial_world) 0) as (_ & _ & Hsame).
    rewrite Hsame; [reflexivity|]. intros m Hm. injection Hm as <-. discriminate.
Defined.

(** * Further properties of the store *)

(** X1. A cell written by its effect is read back by the next first
    render, whatever the key and the default: when the store takes the
    write and [JSON] reads back what it wrote for the value, the
    initialiser returns that value. *)
Theorem X1_cell_write_then_read
    {J : JSON} (key : string) (initial v : jsval) (text : string) (sto : Storage) :
  accessible sto = true →
  JSON_stringify v = Ok text →
  truthy text = true →
  JSON_parse text = Ok v →
  (N.of_nat (used (<[key := text]> (items sto))) <= quota sto)%N →
  ∃ sto', usePersistentState_effect key v sto = Ok sto' ∧
          items sto' !! key = Some text ∧
          usePersistentState_init key initial sto' = Ok v.
Proof.
  intros Hacc Hprint Htruthy Hread Hquota.
  pose proof (setItem_succeeds sto key text Hacc Hquota) as Hset.
  destruct (effect_written key v sto text _ Hprint Hset) as (Heff & Hitems & _).
  eexists. split; [exact Heff|]. simpl. split; [apply lookup_insert_eq|].
  rewrite usePersistentState_init_cell. f_equal.
  apply cell_decodes. split; [exact Hacc|].
  exists text. split; [apply lookup_insert_eq|done].
Qed.

Lemma X1_witness :
  ∃ sto', @usePersistentState_effect ScalarJSON.instance "userRules"
            (JStr DEFAULT_RULES) Run.corrupt_store = Ok sto' ∧
          items sto' !! "userRules" = Some (ScalarJSON.print (JStr DEFAULT_RULES)) ∧
          @usePersistentState_init ScalarJSON.instance "userRules" JNull sto' =
            Ok (JStr DEFAULT_RULES).
Proof.
  apply (@X1_cell_write_then_read ScalarJSON.instance "userRules" JNull
           (JStr DEFAULT_RULES) (ScalarJSON.print (JStr DEFAULT_RULES))
           Run.corrupt_store); try reflexivity.
  vm_compute. discriminate.
Defined.

(** X2. The effect of a cell touches the entry of its own key only,
    whether the write succeeds or is dropped: every other entry, and what
    every other cell reads, is as before. *)
Theorem X2_effect_leaves_other_entries
    {J : JSON} (key other : string) (v initial : jsval) (sto : Storage) :
  other ≠ key →
  ∃ sto', usePersistentState_effect key v sto = Ok sto' ∧
          items sto' !! other = items sto !! other ∧
          accessible sto' = accessible sto ∧ quota sto' = quota sto ∧
          usePersistentState_init other initial sto' =
          usePersistentState_init other initial sto.
Proof.
  intros Hne.
  unfold usePersistentState_effect, try_catch, mbind, Exc_bind.
  destruct (JSON_stringify v) as [text|err]; [|by eexists].
  unfold setItem. destruct (accessible sto) eqn:Hacc; [|by eexists].
  destruct (_ <=? _)%N; [|by eexists].
  eexists. split; [done|]. simpl.
  split; [by apply lookup_insert_ne|]. split; [done|]. split; [done|].
  rewrite !usePersistentState_init_cell. f_equal.
  apply cell_own_entry. by apply lookup_insert_ne.
Qed.

Lemma X2_witness :
  ∃ sto', @usePersistentState_effect ScalarJSON.instance "temperature"
            (JNum (Dec 9 1)) Run.corrupt_store = Ok sto' ∧
          items sto' !! "maxTokens" = Some "{oops".
Proof.
  destruct (@X2_effect_leaves_other_entries ScalarJSON.instance "temperature"
              "maxTokens" (JNum (Dec 9 1)) JNull Run.corrupt_store)
    as (sto' & Heff & Hother & _); [discriminate|].
  exists sto'. split; [exact Heff|]. rewrite Hother. reflexivity.
Defined.

(** X3. The first render repairs an entry it could not use: when the
    storage can be read but the entry of the key is missing, empty or not
    JSON, the cell starts from the default and its effect, if the store
    takes the write, replaces the entry by the serialised default. *)
Theorem X3_first_render_repairs_entry
    {J : JSON} (key : string) (initial : jsval) (text : string) (sto : Storage) :
  accessible sto = true →
  (items sto !! key = None ∨ items sto !! key = Some "" ∨
   ∃ raw err, items sto !! key = Some raw ∧ JSON_parse raw = Throw err) →
  JSON_stringify initial = Ok text →
  (N.of_nat (used (<[key := text]> (items sto))) <= quota sto)%N →
  ∃ v sto', usePersistentState_init key initial sto = Ok v ∧
            usePersistentState_effect key v sto = Ok sto' ∧
            items sto' !! key = Some text.
Proof.
  intros Hacc Hbad Hprint Hquota.
  exists initial. eexists.
  split.
  { rewrite usePersistentState_init_cell. f_equal.
    apply cell_unusable. right. exact Hbad. }
  pose proof (setItem_succeeds sto key text Hacc Hquota) as Hset.
  destruct (effect_written key initial sto text _ Hprint Hset) as (Heff & _).
  split; [exact Heff|]. simpl. apply lookup_insert_eq.
Qed.

Lemma X3_witness :
  ∃ v sto', @usePersistentState_init ScalarJSON.instance "maxTokens"
              (JNum DEFAULT_MAX_TOKENS) Run.corrupt_store = Ok v ∧
            @usePersistentState_effect ScalarJSON.instance "maxTokens" v
              Run.corrupt_store = Ok sto' ∧
            items sto' !! "maxTokens" = Some "512".
Proof.
  apply (@X3_first_render_repairs_entry ScalarJSON.instance "maxTokens"
           (JNum DEFAULT_MAX_TOKENS) "512" Run.corrupt_store); try reflexivity.
  - right. right. exists "{oops", (ThrownError "SyntaxError"). split; reflexivity.
  - vm_compute. discriminate.
Defined.

(** * Further properties of the engine and of the settings *)

Lemma same_settings_refl s : same_settings s s.
Proof. by repeat split. Qed.

Lemma same_settings_trans s1 s2 s3 :
  same_settings s1 s2 → same_settings s2 s3 → same_settings s1 s3.
Proof.
  unfold same_settings. intros (?&?&?&?&?&?&?) (?&?&?&?&?&?&?).
  split_and!; congruence.
Qed.

Lemma consume_settings chunks sw : same_settings (fst sw) (fst (consume chunks sw)).
Proof.
  revert sw. induction chunks as [|c chunks IH]; intros sw; [apply same_settings_refl|].
  simpl. eapply same_settings_trans; [|apply IH].
  unfold on_chunk. destruct (truthy _); by repeat split.
Qed.

Lemma consume_input chunks sw : input (fst (consume chunks sw)) = input (fst sw).
Proof.
  revert sw. induction chunks as [|c chunks IH]; intros sw; [done|].
  simpl. rewrite IH. unfold on_chunk. by destruct (truthy _).
Qed.

(** What [run_stream] leaves alone in the world. *)
Lemma run_stream_world rep sw :
  controllers (snd (run_stream rep sw)) = controllers (snd sw) ∧
  abortRef (snd (run_stream rep sw)) = abortRef (snd sw) ∧
  loads (snd (run_stream rep sw)) = loads (snd sw).
Proof.
  assert (Hcatch : ∀ err sw0,
            controllers (snd (run_catch err sw0)) = controllers (snd sw0) ∧
            abortRef (snd (run_catch err sw0)) = abortRef (snd sw0) ∧
            loads (snd (run_catch err sw0)) = loads (snd sw0)).
  { intros err sw0. unfold run_catch. by case_bool_decide. }
  destruct rep as [err|chunks [|err]]; simpl.
  - apply Hcatch.
  - by rewrite consume_world.
  - destruct (Hcatch err (consume chunks sw)) as (-> & -> & ->).
    by rewrite consume_world.
Qed.

Lemma run_stream_cells rep sw :
  same_settings (fst sw) (fst (run_stream rep sw)) ∧
  input (fst (run_stream rep sw)) = input (fst sw).
Proof.
  assert (Hcatch : ∀ err sw0, fst (run_catch err sw0) = fst sw0).
  { intros err sw0. unfold run_catch. by case_bool_decide. }
  destruct rep as [err|chunks [|err]]; simpl; rewrite ?Hcatch.
  - split; [apply same_settings_refl|done].
  - split; [apply consume_settings|apply consume_input].
  - split; [apply consume_settings|apply consume_input].
Qed.

Lemma run_settings r e text rep sw :
  same_settings (fst sw) (fst (run r e text rep sw)) ∧
  input (fst (run r e text rep sw)) = input (fst sw) ∧
  loads (snd (run r e text rep sw)) = loads (snd sw).
Proof.
  unfold run, run_finally. simpl.
  destruct (run_stream_cells rep (run_start r e text sw)) as [Hs Hi].
  destruct (run_stream_world rep (run_start r e text sw)) as (_ & _ & Hl).
  destruct sw as [s w]. split_and!.
  - destruct Hs as (?&?&?&?&?&?&?). by repeat split.
  - by rewrite Hi.
  - by rewrite Hl.
Qed.

Lemma send_ready_settings r e rep sw :
  same_settings (fst sw) (fst (send_ready r e rep sw)) ∧
  loads (snd (send_ready r e rep sw)) = loads (snd sw).
Proof.
  unfold send_ready. destruct (truthy _); [|split; [apply same_settings_refl|done]].
  destruct (run_settings r e (trim (input r)) rep sw) as (Hs & _ & Hl).
  simpl. split; [|exact Hl].
  destruct Hs as (?&?&?&?&?&?&?). by repeat split.
Qed.

(** X4. [initEngine] starts at most one load. From a render with no
    engine and no load in progress it calls [CreateMLCEngine] once, for
    the model of the render, and leaves [loadingModel] cleared whatever
    the outcome: the engine is stored when the load resolves; when it
    rejects, the engine cell keeps its value and the failure is reported
    once, in an alert that names the model. From a render that has an
    engine or a load in progress it does nothing. *)
Theorem X4_initEngine_loads_at_most_once
    (r : State) (load : load_outcome) (sw : Sys) :
  (engine r = None → loadingModel r = false →
   loads (snd (initEngine r load sw)) = loads (snd sw) ++ [model r] ∧
   loadingModel (fst (initEngine r load sw)) = false ∧
   match load with
   | LoadResolves e =>
       engine (fst (initEngine r load sw)) = Some e ∧
       alerts (snd (initEngine r load sw)) = alerts (snd sw) ∧
       console (snd (initEngine r load sw)) = console (snd sw)
   | LoadRejects err =>
       engine (fst (initEngine r load sw)) = engine (fst sw) ∧
       alerts (snd (initEngine r load sw)) =
         alerts (snd sw) ++
         ["Failed to load model " +:+ model r +:+
          ". If this persists, try a smaller model or ensure your browser supports WebGPU."] ∧
       console (snd (initEngine r load sw)) = console (snd sw) ++ [err]
   end) ∧
  (is_Some (engine r) ∨ loadingModel r = true → initEngine r load sw = sw).
Proof.
  destruct sw as [s w]. unfold initEngine. split.
  - intros -> ->. simpl. by destruct load.
  - intros [[e ->]| ->]; simpl; [done|].
    by rewrite orb_true_r.
Qed.

Lemma X4_witness :
  (loads (snd (mount Run.fresh (LoadRejects Run.type_error))) = [DEFAULT_MODEL] ∧
   loadingModel (fst (mount Run.fresh (LoadRejects Run.type_error))) = false ∧
   engine (fst (mount Run.fresh (LoadRejects Run.type_error))) = None ∧
   length (alerts (snd (mount Run.fresh (LoadRejects Run.type_error)))) = 1%nat) ∧
  initEngine Run.ready (LoadResolves Run.llama) (Run.ready, initial_world) =
    (Run.ready, initial_world).
Proof.
  split.
  - destruct (X4_initEngine_loads_at_most_once Run.fresh (LoadRejects Run.type_error)
                (Run.fresh, initial_world)) as [Hrun _].
    destruct (Hrun eq_refl eq_refl) as (Hl & Hb & He & Ha & _).
    unfold mount. split_and!; [exact Hl|exact Hb|exact He|].
    rewrite Ha. reflexivity.
  - destruct (X4_initEngine_loads_at_most_once Run.ready (LoadResolves Run.llama)
                (Run.ready, initial_world)) as [_ Hguard].
    apply Hguard. left. by eexists.
Defined.

(** X5. A send while the model is loading is dropped whole: from a render
    with no engine and a load in progress, [send] changes neither the
    cells nor the world; the typed text stays in the input and is not
    sent when the load ends. *)
Theorem X5_send_while_loading_is_dropped
    (r : State) (load : load_outcome) (rep : reply) (sw : Sys) :
  engine r = None → loadingModel r = true → send r load rep sw = sw.
Proof.
  intros He Hl. unfold send. rewrite He.
  destruct sw as [s w]. unfold initEngine. rewrite He, Hl. done.
Qed.

Lemma X5_witness :
  send (setLoadingModel true Run.not_ready) (LoadResolves Run.llama)
    (Streams Run.two_chunks StreamCompletes)
    (setLoadingModel true Run.not_ready, initial_world) =
  (setLoadingModel true Run.not_ready, initial_world).
Proof.
  apply (X5_send_while_loading_is_dropped (setLoadingModel true Run.not_ready));
    reflexivity.
Defined.

(** X6. Once an engine is loaded no user action replaces it or loads
    another one: after any action on any control, the engine cell holds
    the same engine and [CreateMLCEngine] has not been called; this
    includes the choice of another model in the selector. *)
Theorem X6_engine_never_reloaded
    (c : control) (load : load_outcome) (rep : reply) (sw : Sys) (e : MLCEngine) :
  engine (fst sw) = Some e →
  engine (fst (act c load rep sw)) = Some e ∧
  loads (snd (act c load rep sw)) = loads (snd sw).
Proof.
  intros He. unfold act. destruct (enabled (fst sw) c); [|done].
  destruct c; simpl; try done.
  - rewrite (send_with_engine _ e) by done.
    destruct (send_ready_settings (fst sw) e rep sw) as [(-> & _) ->]. done.
  - rewrite (send_with_engine _ e) by done.
    destruct (send_ready_settings (fst sw) e rep sw) as [(-> & _) ->]. done.
  - destruct sw as [s w]. simpl in *. by destruct (abortRef w).
  - destruct sw as [s w]. simpl in *. unfold initEngine. by rewrite He.
Qed.

Lemma X6_witness :
  engine (fst (act (ModelSelect "Phi-3-mini-4k-instruct-q4f16_1-MLC")
                 (LoadResolves (Engine "Phi-3-mini-4k-instruct-q4f16_1-MLC"))
                 (Streams [] StreamCompletes) (Run.ready, initial_world))) =
    Some Run.llama ∧
  model (fst (act (ModelSelect "Phi-3-mini-4k-instruct-q4f16_1-MLC")
                (LoadResolves (Engine "Phi-3-mini-4k-instruct-q4f16_1-MLC"))
                (Streams [] StreamCompletes) (Run.ready, initial_world))) =
    "Phi-3-mini-4k-instruct-q4f16_1-MLC".
Proof.
  split; [|reflexivity].
  apply (X6_engine_never_reloaded (ModelSelect "Phi-3-mini-4k-instruct-q4f16_1-MLC")).
  reflexivity.
Defined.

(** X7. The settings reach the engine as they are in the cells. After the
    user chose a model in the selector, changed the temperature and typed
    a value in the Max tokens field, the next send hands over one request
    with that model name, that temperature and [parseInt(value || "0",
    10)], unchecked, in streaming mode; the engine of the request is the
    one that was loaded before, whatever model was chosen. *)
Theorem X7_settings_reach_next_request
    (m value : string) (t : number) (load : load_outcome) (rep : reply)
    (sw : Sys) (e : MLCEngine) :
  engine (fst sw) = Some e →
  generating (fst sw) = false →
  loadingModel (fst sw) = false →
  truthy (trim (input (fst sw))) = true →
  ∃ req,
    requests (snd (act InputEnter load rep
                     (act (MaxTokensChange value) load rep
                        (act (TemperatureChange t) load rep
                           (act (ModelSelect m) load rep sw))))) =
      requests (snd sw) ++ [req] ∧
    req_engine req = e ∧ req_model req = m ∧ req_temperature req = t ∧
    req_max_tokens req = parseInt10 (if truthy value then value else "0") ∧
    req_stream req = true.
Proof.
  intros He Hg Hl Ht. destruct sw as [s w]. simpl in *.
  unfold act at 4. simpl. rewrite Hg, Hl. simpl.
  unfold act at 3. simpl. unfold act at 2. simpl.
  unfold act. simpl. rewrite Hg. simpl.
  rewrite (send_with_engine _ e) by done.
  eexists. split; [by apply send_ready_requests|]. done.
Qed.

Lemma X7_witness :
  ∃ req,
    requests (snd (act InputEnter (LoadResolves Run.llama) (Streams [] StreamCompletes)
                     (act (MaxTokensChange "abc") (LoadResolves Run.llama)
                        (Streams [] StreamCompletes)
                        (act (TemperatureChange NaN) (LoadResolves Run.llama)
                           (Streams [] StreamCompletes)
                           (act (ModelSelect "Phi-3-mini-4k-instruct-q4f16_1-MLC")
                              (LoadResolves Run.llama) (Streams [] StreamCompletes)
                              (Run.ready, initial_world)))))) = [] ++ [req] ∧
    req_engine req = Run.llama ∧
    req_model req = "Phi-3-mini-4k-instruct-q4f16_1-MLC" ∧
    req_temperature req = NaN ∧ req_max_tokens req = NaN.
Proof.
  destruct (X7_settings_reach_next_request "Phi-3-mini-4k-instruct-q4f16_1-MLC"
              "abc" NaN (LoadResolves Run.llama) (Streams [] StreamCompletes)
              (Run.ready, initial_world) Run.llama eq_refl eq_refl eq_refl eq_refl)
    as (req & Hreq & He & Hm & Ht & Hk & _).
  exists req. split_and!; [exact Hreq|exact He|exact Hm|exact Ht|exact Hk].
Defined.

(** * Further properties of cancellation *)

Lemma stop_on_chunk c sw : stop (on_chunk c sw) = on_chunk c (stop sw).
Proof. destruct sw as [s w]. unfold on_chunk. simpl. by destruct (truthy _). Qed.

Lemma stop_consume chunks sw : stop (consume chunks sw) = consume chunks (stop sw).
Proof.
  revert sw. induction chunks as [|c chunks IH]; intros sw; [done|].
  simpl. by rewrite IH, stop_on_chunk.
Qed.

(** X8. [stop] aborts the controller [abortRef] points to and no other,
    empties [abortRef], and leaves the cells, the requests and the alerts
    alone; a second [stop] changes nothing more. *)
Theorem X8_stop_aborts_current_controller_only (sw : Sys) (i : nat) :
  stop (stop sw) = stop sw ∧
  fst (stop sw) = fst sw ∧
  abortRef (snd (stop sw)) = None ∧
  requests (snd (stop sw)) = requests (snd sw) ∧
  alerts (snd (stop sw)) = alerts (snd sw) ∧
  length (controllers (snd (stop sw))) = length (controllers (snd sw)) ∧
  (abortRef (snd sw) ≠ Some i →
   controllers (snd (stop sw)) !! i = controllers (snd sw) !! i) ∧
  (abortRef (snd sw) = Some i → i < length (controllers (snd sw)) →
   controllers (snd (stop sw)) !! i = Some true).
Proof.
  destruct sw as [s w]. simpl.
  destruct (abortRef w) as [c|] eqn:Hc; simpl; split_and!; try done.
  - apply length_insert.
  - intros Hne. apply list_lookup_insert_ne. congruence.
  - intros [= ->] Hi. by apply list_lookup_insert_eq.
Qed.

Lemma X8_witness :
  controllers (snd (stop Run.streaming)) !! 0%nat = Some true ∧
  controllers (snd (stop Run.streaming)) !! 1%nat = None.
Proof.
  destruct (X8_stop_aborts_current_controller_only Run.streaming 0)
    as (_ & _ & _ & _ & _ & _ & _ & Hcur).
  destruct (X8_stop_aborts_current_controller_only Run.streaming 1)
    as (_ & _ & _ & _ & _ & _ & Hother & _).
  split.
  - apply Hcur; [reflexivity|simpl; lia].
  - rewrite Hother; [reflexivity|discriminate].
Defined.

(** X9. [stop] does not end the merge by itself: the loop never reads the
    signal, so chunks that still arrive after [stop] are merged exactly
    as they would have been without it. Merging after [stop] and
    stopping after the merge give the same cells and the same world. *)
Theorem X9_chunks_after_stop_are_merged (chunks : list Chunk) (sw : Sys) :
  consume chunks (stop sw) = stop (consume chunks sw) ∧
  messages (fst (consume chunks (stop sw))) = messages (fst (consume chunks sw)).
Proof.
  rewrite <- stop_consume. split; [done|].
  by destruct (consume chunks sw).
Qed.

(** X10. A request cancelled in mid-stream. [run] has started, some
    chunks were merged, the user presses Stop, more chunks may still
    arrive, and the stream ends with an [AbortError]: the history ends
    with the user message and an assistant message that holds every delta
    merged before the error, nothing is reported, [generating] and
    [abortRef] are cleared, and the controller of the request is
    aborted. *)
Theorem X10_cancelled_request
    (r : State) (e : MLCEngine) (text : string) (before late : list Chunk) (sw : Sys) :
  messages (fst (run_finally (run_catch (ThrownError "AbortError")
      (consume late (stop (consume before (run_start r e text sw))))))) =
    messages (fst sw) ++
    [{| msg_role := user; content := text |};
     {| msg_role := assistant; content := merged (before ++ late) |}] ∧
  alerts (snd (run_finally (run_catch (ThrownError "AbortError")
      (consume late (stop (consume before (run_start r e text sw))))))) =
    alerts (snd sw) ∧
  generating (fst (run_finally (run_catch (ThrownError "AbortError")
      (consume late (stop (consume before (run_start r e text sw))))))) = false ∧
  abortRef (snd (run_finally (run_catch (ThrownError "AbortError")
      (consume late (stop (consume before (run_start r e text sw))))))) = None ∧
  controllers (snd (run_finally (run_catch (ThrownError "AbortError")
      (consume late (stop (consume before (run_start r e text sw))))))) =
    controllers (snd sw) ++ [true].
Proof.
  rewrite <- stop_consume.
  replace (consume late (consume before (run_start r e text sw)))
    with (consume (before ++ late) (run_start r e text sw))
    by (unfold consume; apply fold_left_app).
  pose proof (run_messages r e text (before ++ late)
                (StreamThrows (ThrownError "AbortError")) sw) as Hm.
  unfold run, run_stream, run_catch in Hm.
  unfold run_catch. rewrite bool_decide_eq_true_2 in * by done.
  pose proof (consume_world (before ++ late) (run_start r e text sw)) as Hw.
  destruct (consume (before ++ late) (run_start r e text sw)) as [s' w'].
  simpl in *. subst w'. destruct sw as [s w]. simpl in *.
  split_and!; try done.
  replace (length (controllers w)) with (length (controllers w) + 0)%nat by lia.
  by rewrite insert_app_r.
Qed.

Lemma run_world r e text rep sw :
  controllers (snd (run r e text rep sw)) = controllers (snd sw) ++ [false] ∧
  abortRef (snd (run r e text rep sw)) = Some (length (controllers (snd sw))) ∧
  requests (snd (run r e text rep sw)) =
    requests (snd sw) ++
    [{| req_engine := e; req_model := model r;
        req_messages := outbound r {| msg_role := user; content := text |};
        req_temperature := temperature r; req_max_tokens := maxTokens r;
        req_stream := true; req_signal := length (controllers (snd sw)) |}].
Proof.
  unfold run, run_finally. simpl.
  destruct (run_stream_world rep (run_start r e text sw)) as (-> & -> & _).
  destruct (run_stream_frame rep (run_start r e text sw)) as [-> _].
  rewrite run_start_requests. by destruct sw.
Qed.

(** X11. [run] never empties [abortRef]: after a request has ended, in
    whatever way, [abortRef] still points to its controller, and a Stop
    pressed then aborts that controller. This cannot reach a later
    request: the next [run] makes a new controller, which is not
    aborted. *)
Theorem X11_stale_controller_cannot_cancel_next_request
    (r r' : State) (e e' : MLCEngine) (text text' : string) (rep : reply) (sw : Sys) :
  abortRef (snd (run r e text rep sw)) = Some (length (controllers (snd sw))) ∧
  ∃ req,
    last (requests (snd (run_start r' e' text' (stop (run r e text rep sw))))) = Some req ∧
    req_signal req = S (length (controllers (snd sw))) ∧
    controllers (snd (run_start r' e' text' (stop (run r e text rep sw))))
      !! req_signal req = Some false ∧
    controllers (snd (run_start r' e' text' (stop (run r e text rep sw))))
      !! length (controllers (snd sw)) = Some true.
Proof.
  destruct (run_world r e text rep sw) as (Hc & Ha & _).
  split; [exact Ha|].
  destruct (run r e text rep sw) as [s1 w1]. simpl in *.
  rewrite Ha. eexists. split; [apply last_snoc|]. simpl.
  rewrite length_insert, Hc, length_app. simpl.
  split; [lia|]. split.
  - rewrite lookup_app_r; rewrite length_insert, length_app; simpl; [|lia].
    by rewrite Nat.sub_diag.
  - rewrite lookup_app_l by (rewrite length_insert, length_app; simpl; lia).
    apply list_lookup_insert_eq. rewrite length_app. simpl. lia.
Qed.

(** Every controller that a request or [abortRef] refers to exists,
    and no user action breaks this: if it holds before an action on any
    control, it holds after it. *)
Lemma world_ok_act
    (c : control) (load : load_outcome) (rep : reply) (sw : Sys) :
  world_ok (snd sw) → world_ok (snd (act c load rep sw)).
Proof.
  intros [Hreq Href]. unfold act. destruct (enabled (fst sw) c); [|done].
  assert (Hinit : world_ok (snd (initEngine (fst sw) load sw))).
  { destruct (initEngine_frame (fst sw) load sw) as (_ & _ & _ & Hr & Hc & Ha).
    unfold world_ok. by rewrite Hr, Hc, Ha. }
  assert (Hsend : ∀ e, world_ok (snd (send_ready (fst sw) e rep sw))).
  { intros e. unfold send_ready. destruct (truthy _); [|done].
    cbv zeta. cbn [snd].
    destruct (run_world (fst sw) e (trim (input (fst sw))) rep sw) as (Hc & Ha & Hr).
    unfold world_ok. rewrite Hr, Hc, Ha, length_app. simpl. split.
    - apply Forall_app. split.
      + eapply Forall_impl; [exact Hreq|]. simpl. intros; lia.
      + constructor; [simpl; lia|constructor].
    - intros k [= <-]. lia. }
  assert (Hsent : world_ok (snd (send (fst sw) load rep sw))).
  { unfold send. destruct (engine (fst sw)); [apply Hsend|apply Hinit]. }
  destruct c; simpl; try done.
  destruct sw as [s w]. simpl in *. split; simpl; [|done].
  destruct (abortRef w); simpl; [|done].
  by rewrite length_insert.
Qed.

(** X12. Each request gets a controller of its own. When every earlier
    request refers to an existing controller, the request that [send]
    hands over carries a signal that no earlier request carries, and its
    controller is not aborted when [send] is over. *)
Theorem X12_request_signal_is_fresh
    (r : State) (e : MLCEngine) (load : load_outcome) (rep : reply) (sw : Sys) :
  world_ok (snd sw) →
  engine r = Some e →
  truthy (trim (input r)) = true →
  ∃ req,
    requests (snd (send r load rep sw)) = requests (snd sw) ++ [req] ∧
    Forall (fun old => req_signal old ≠ req_signal req) (requests (snd sw)) ∧
    controllers (snd (send r load rep sw)) !! req_signal req = Some false.
Proof.
  intros [Hreq _] He Ht. rewrite (send_with_engine r e) by done.
  unfold send_ready. rewrite Ht. cbv zeta. cbn [snd].
  destruct (run_world r e (trim (input r)) rep sw) as (Hc & _ & Hr).
  eexists. split; [exact Hr|]. cbn [req_signal]. split.
  - eapply Forall_impl; [exact Hreq|]. simpl. intros; lia.
  - rewrite Hc. rewrite lookup_app_r by lia. by rewrite Nat.sub_diag.
Qed.

Lemma X12_witness :
  ∃ req,
    requests (snd (send (setInput "more" (fst Run.streaming)) (LoadResolves Run.llama)
                     (Streams [] StreamCompletes) Run.streaming)) =
      requests (snd Run.streaming) ++ [req] ∧
    Forall (fun old => req_signal old ≠ req_signal req) (requests (snd Run.streaming)) ∧
    controllers (snd (send (setInput "more" (fst Run.streaming)) (LoadResolves Run.llama)
                        (Streams [] StreamCompletes) Run.streaming))
      !! req_signal req = Some false.
Proof.
  apply (X12_request_signal_is_fresh (setInput "more" (fst Run.streaming)) Run.llama);
    [|reflexivity|reflexivity].
  split.
  - repeat constructor.
  - intros c Hc. injection Hc as <-. simpl. lia.
Defined.

(** * Further properties of the history *)

Lemma trimEnd_idempotent (s : string) : trimEnd (trimEnd s) = trimEnd s.
Proof.
  induction s as [|a s IH]; [done|]. simpl.
  destruct (trimEnd s) as [|b t] eqn:Hs.
  - destruct (is_ws a) eqn:Ha; [done|]. simpl. by rewrite Ha.
  - simpl in *. by rewrite IH.
Qed.

Lemma trimStart_head (s : string) :
  trimStart s = "" ∨ ∃ a t, trimStart s = String a t ∧ is_ws a = false.
Proof.
  induction s as [|a s IH]; [by left|]. simpl.
  destruct (is_ws a) eqn:Ha; [exact IH|]. right. by exists a, s.
Qed.

Lemma trimEnd_head (a : ascii) (t : string) :
  is_ws a = false → ∃ t', trimEnd (String a t) = String a t'.
Proof.
  intros Ha. simpl. destruct (trimEnd t); rewrite ?Ha; by eexists.
Qed.

(** [trim] changes nothing in what it returned. *)
Lemma trim_idempotent (s : string) : trim (trim s) = trim s.
Proof.
  unfold trim. destruct (trimStart_head s) as [->|(a & t & -> & Ha)]; [done|].
  destruct (trimEnd_head a t Ha) as [t' Ht].
  rewrite Ht at 1. simpl trimStart. rewrite Ha. rewrite <- Ht.
  apply trimEnd_idempotent.
Qed.

Lemma merge_delta_cases d prev :
  (∃ pre c, prev = pre ++ [{| msg_role := assistant; content := c |}] ∧
            merge_delta d prev = pre ++ [{| msg_role := assistant; content := c +:+ d |}]) ∨
  merge_delta d prev = prev.
Proof.
  destruct prev as [|[[] c] pre _] using rev_ind.
  - by right.
  - right. apply merge_delta_not_assistant.
    intros m. rewrite last_snoc. by intros [= <-].
  - left. exists pre, c. split; [done|apply merge_delta_assistant].
Qed.

(** X13. Merging two deltas one after the other gives the history that
    merging their concatenation gives: batching consecutive deltas does
    not change the result. *)
Theorem X13_merge_delta_batches (d1 d2 : string) (prev : list Message) :
  merge_delta d2 (merge_delta d1 prev) = merge_delta (d1 +:+ d2) prev.
Proof.
  destruct prev as [|[[] c] pre _] using rev_ind.
  - done.
  - assert (Hu : ∀ d, merge_delta d (pre ++ [{| msg_role := user; content := c |}]) =
                      pre ++ [{| msg_role := user; content := c |}]).
    { intros d. apply merge_delta_not_assistant.
      intros m. rewrite last_snoc. by intros [= <-]. }
    by rewrite !Hu.
  - rewrite !merge_delta_assistant. by rewrite append_assoc.
Qed.

Lemma merge_delta_roles d prev :
  map msg_role (merge_delta d prev) = map msg_role prev.
Proof.
  destruct (merge_delta_cases d prev) as [(pre & c & -> & ->)| ->]; [|done].
  by rewrite !map_app.
Qed.

Lemma consume_roles chunks sw :
  map msg_role (messages (fst (consume chunks sw))) = map msg_role (messages (fst sw)).
Proof.
  revert sw. induction chunks as [|c chunks IH]; intros sw; [done|].
  simpl. rewrite IH. unfold on_chunk.
  destruct (truthy _); [|done]. simpl. apply merge_delta_roles.
Qed.

Lemma run_stream_roles rep sw :
  map msg_role (messages (fst (run_stream rep sw))) = map msg_role (messages (fst sw)).
Proof.
  destruct rep as [err|chunks [|err]]; simpl.
  - by destruct (run_catch_frame err sw) as (-> & _).
  - apply consume_roles.
  - destruct (run_catch_frame err (consume chunks sw)) as (-> & _).
    apply consume_roles.
Qed.

Lemma run_roles r e text rep sw :
  map msg_role (messages (fst (run r e text rep sw))) =
  map msg_role (messages (fst sw)) ++ [user; assistant].
Proof.
  unfold run, run_finally. simpl.
  rewrite run_stream_roles, run_start_messages.
  rewrite !map_app. simpl. by rewrite <- app_assoc.
Qed.

Lemma turns_app_bounded (n : nat) : ∀ l1 l2 : list role,
  (length l1 ≤ n)%nat → turns l1 = true → turns (l1 ++ l2) = turns l2.
Proof.
  induction n as [|n IH]; intros l1 l2 Hn Ht.
  - destruct l1; [done|simpl in Hn; lia].
  - destruct l1 as [|[] [|[] rest]]; try done.
    simpl in *. apply IH; [lia|done].
Qed.

Lemma turns_app l1 l2 : turns l1 = true → turns (l1 ++ l2) = turns l2.
Proof. apply (turns_app_bounded (length l1)). lia. Qed.

(** X14. The history is a sequence of turns, a user message followed by
    an assistant message, and stays one: neither an action on a control
    nor a chunk of a stream breaks the alternation. *)
Theorem X14_history_alternates
    (c : control) (load : load_outcome) (rep : reply) (ch : Chunk) (sw : Sys) :
  alternating (messages (fst sw)) = true →
  alternating (messages (fst (act c load rep sw))) = true ∧
  alternating (messages (fst (on_chunk ch sw))) = true.
Proof.
  intros Halt. split.
  - unfold act. destruct (enabled (fst sw) c); [|done].
    assert (Hinit : alternating (messages (fst (initEngine (fst sw) load sw))) = true).
    { by destruct (initEngine_frame (fst sw) load sw) as (-> & _). }
    assert (Hsent : alternating (messages (fst (send (fst sw) load rep sw))) = true).
    { unfold send. destruct (engine (fst sw)) as [e|]; [|exact Hinit].
      unfold send_ready. destruct (truthy _); [|done].
      cbv zeta. cbn [fst]. unfold alternating.
      change (messages (setInput "" ?s)) with (messages s).
      rewrite run_roles. by rewrite turns_app. }
    destruct c; simpl; try done. by destruct sw.
  - unfold alternating. unfold on_chunk. destruct (truthy _); [|done].
    simpl. by rewrite merge_delta_roles.
Qed.

Lemma X14_witness :
  alternating (messages (fst (act InputEnter (LoadResolves Run.llama)
                                (Streams Run.two_chunks (StreamThrows Run.type_error))
                                (Run.ready, initial_world)))) = true ∧
  alternating (messages (fst (on_chunk (text_chunk "!") Run.streaming))) = true.
Proof.
  split.
  - apply (X14_history_alternates InputEnter (LoadResolves Run.llama)
             (Streams Run.two_chunks (StreamThrows Run.type_error))
             (text_chunk "!") (Run.ready, initial_world)).
    reflexivity.
  - apply (X14_history_alternates InputEnter (LoadResolves Run.llama)
             (Streams [] StreamCompletes) (text_chunk "!") Run.streaming).
    reflexivity.
Defined.

Lemma merge_delta_sent_text d prev :
  Forall sent_text prev → Forall sent_text (merge_delta d prev).
Proof.
  intros Hall.
  destruct (merge_delta_cases d prev) as [(pre & c & -> & ->)| ->]; [|done].
  apply Forall_app in Hall as [Hpre _]. apply Forall_app. split; [done|].
  constructor; [|constructor]. intros Hrole. discriminate Hrole.
Qed.

Lemma consume_sent_text chunks sw :
  Forall sent_text (messages (fst sw)) →
  Forall sent_text (messages (fst (consume chunks sw))).
Proof.
  revert sw. induction chunks as [|c chunks IH]; intros sw Hall; [done|].
  simpl. apply IH. unfold on_chunk. destruct (truthy _); [|done].
  simpl. by apply merge_delta_sent_text.
Qed.

Lemma run_sent_text r e text rep sw :
  text ≠ "" → trim text = text →
  Forall sent_text (messages (fst sw)) →
  Forall sent_text (messages (fst (run r e text rep sw))).
Proof.
  intros Hne Htrim Hall. unfold run, run_finally. simpl.
  assert (Hstart : Forall sent_text (messages (fst (run_start r e text sw)))).
  { rewrite run_start_messages. apply Forall_app. split.
    - apply Forall_app. split; [done|]. constructor; [|constructor]. by intros _.
    - constructor; [|constructor]. intros Hrole. discriminate Hrole. }
  destruct rep as [err|chunks [|err]]; simpl.
  - by destruct (run_catch_frame err (run_start r e text sw)) as (-> & _).
  - by apply consume_sent_text.
  - destruct (run_catch_frame err (consume chunks (run_start r e text sw))) as (-> & _).
    by apply consume_sent_text.
Qed.

(** X15. A user message of the history is never empty and never starts
    or ends with white space, and this is kept by every action on a
    control and by every chunk of a stream: [send] appends the trimmed
    input only when it is not empty, and the merge rewrites assistant
    messages only. *)
Theorem X15_user_messages_trimmed_and_not_empty
    (c : control) (load : load_outcome) (rep : reply) (ch : Chunk) (sw : Sys) :
  Forall sent_text (messages (fst sw)) →
  Forall sent_text (messages (fst (act c load rep sw))) ∧
  Forall sent_text (messages (fst (on_chunk ch sw))).
Proof.
  intros Hall. split.
  - unfold act. destruct (enabled (fst sw) c); [|done].
    assert (Hinit : Forall sent_text (messages (fst (initEngine (fst sw) load sw)))).
    { by destruct (initEngine_frame (fst sw) load sw) as (-> & _). }
    assert (Hsent : Forall sent_text (messages (fst (send (fst sw) load rep sw)))).
    { unfold send. destruct (engine (fst sw)) as [e|]; [|exact Hinit].
      unfold send_ready. destruct (truthy _) eqn:Ht; [|done].
      cbv zeta. cbn [fst].
      change (messages (setInput "" ?s)) with (messages s).
      apply run_sent_text; [by apply truthy_true|apply trim_idempotent|done]. }
    destruct c; simpl; try done. by destruct sw.
  - unfold on_chunk. destruct (truthy _); [|done].
    simpl. by apply merge_delta_sent_text.
Qed.

Lemma X15_witness :
  Forall sent_text
    (messages (fst (act InputEnter (LoadResolves Run.llama)
                      (Streams Run.two_chunks StreamCompletes)
                      (Run.ready, initial_world)))).
Proof.
  apply (X15_user_messages_trimmed_and_not_empty InputEnter (LoadResolves Run.llama)
           (Streams Run.two_chunks StreamCompletes) (text_chunk "!")
           (Run.ready, initial_world)).
  constructor.
Defined.

(** X16. When [create] itself rejects, before any chunk, the two messages
    that [run] appended stay in the history: the user message and an
    assistant message that is empty. [generating] is cleared, and the
    failure is reported once unless it is an [AbortError]. *)
Theorem X16_create_rejects_leaves_empty_answer
    (r : State) (e : MLCEngine) (text : string) (err : thrown) (sw : Sys) :
  messages (fst (run r e text (CreateRejects err) sw)) =
    messages (fst sw) ++
    [{| msg_role := user; content := text |};
     {| msg_role := assistant; content := "" |}] ∧
  generating (fst (run r e text (CreateRejects err) sw)) = false ∧
  (err_name err ≠ Some "AbortError" →
   alerts (snd (run r e text (CreateRejects err) sw)) =
     alerts (snd sw) ++ ["Generation failed. See console for details."]) ∧
  (err_name err = Some "AbortError" →
   alerts (snd (run r e text (CreateRejects err) sw)) = alerts (snd sw)).
Proof.
  unfold run, run_finally, run_stream, run_catch.
  destruct sw as [s w].
  case_bool_decide as Hname; simpl; split_and!; try done;
    by rewrite <- app_assoc.
Qed.

Lemma X16_witness :
  alerts (snd (run Run.ready Run.llama "hi" (CreateRejects ThrownNullish)
                 (Run.ready, initial_world))) =
    ["Generation failed. See console for details."] ∧
  messages (fst (run Run.ready Run.llama "hi" (CreateRejects ThrownNullish)
                   (Run.ready, initial_world))) =
    [{| msg_role := user; content := "hi" |};
     {| msg_role := assistant; content := "" |}].
Proof.
  destruct (X16_create_rejects_leaves_empty_answer Run.ready Run.llama "hi"
              ThrownNullish (Run.ready, initial_world)) as (Hm & _ & Ha & _).
  split; [|exact Hm]. apply Ha. discriminate.
Defined.

(** X17. [send] empties the input exactly when it has run a request: with
    an engine in its render and an input that is not blank the input cell
    ends empty, however the request ended; in every other case, no engine
    or a blank input, the input cell keeps its value. *)
Theorem X17_input_cleared_only_after_a_request
    (r : State) (load : load_outcome) (rep : reply) (sw : Sys) :
  input (fst (send r load rep sw)) =
    match engine r with
    | Some _ => if truthy (trim (input r)) then "" else input (fst sw)
    | None => input (fst sw)
    end.
Proof.
  unfold send. destruct (engine r) as [e|].
  - unfold send_ready. by destruct (truthy _).
  - by destruct (initEngine_frame r load sw) as (_ & _ & -> & _).
Qed.

(** X18. While [generating] is set no action on any control changes the
    history, hands a request to the engine or clears [generating]: the
    controls that could are disabled or not rendered, and the others do
    not touch them. *)
Theorem X18_no_action_while_generating
    (c : control) (load : load_outcome) (rep : reply) (sw : Sys) :
  generating (fst sw) = true →
  messages (fst (act c load rep sw)) = messages (fst sw) ∧
  requests (snd (act c load rep sw)) = requests (snd sw) ∧
  generating (fst (act c load rep sw)) = true.
Proof.
  intros Hg. unfold act.
  destruct c; simpl; rewrite ?Hg; simpl; try done.
  - destruct sw as [s w]. simpl in *. by destruct (abortRef w).
  - destruct (_ || _); simpl; [done|].
    destruct (initEngine_frame (fst sw) load sw) as (-> & -> & _ & -> & _). done.
Qed.

Lemma X18_witness :
  messages (fst (act InitButton (LoadResolves Run.llama) (Streams [] StreamCompletes)
                   Run.streaming)) = messages (fst Run.streaming) ∧
  requests (snd (act StopButton (LoadResolves Run.llama) (Streams [] StreamCompletes)
                   Run.streaming)) = requests (snd Run.streaming).
Proof.
  split.
  - apply (X18_no_action_while_generating InitButton). reflexivity.
  - apply (X18_no_action_while_generating StopButton). reflexivity.
Defined.

Lemma initEngine_config r load sw :
  model (fst (initEngine r load sw)) = model (fst sw) ∧
  userRules (fst (initEngine r load sw)) = userRules (fst sw) ∧
  stripDefaults (fst (initEngine r load sw)) = stripDefaults (fst sw) ∧
  temperature (fst (initEngine r load sw)) = temperature (fst sw) ∧
  maxTokens (fst (initEngine r load sw)) = maxTokens (fst sw).
Proof.
  destruct sw as [s w]. unfold initEngine.
  destruct (_ || _); [done|]. by destruct load.
Qed.

Lemma send_config r load rep sw :
  model (fst (send r load rep sw)) = model (fst sw) ∧
  userRules (fst (send r load rep sw)) = userRules (fst sw) ∧
  stripDefaults (fst (send r load rep sw)) = stripDefaults (fst sw) ∧
  temperature (fst (send r load rep sw)) = temperature (fst sw) ∧
  maxTokens (fst (send r load rep sw)) = maxTokens (fst sw).
Proof.
  unfold send. destruct (engine r) as [e|]; [|apply initEngine_config].
  destruct (send_ready_settings r e rep sw) as [(_ & _ & ? & ? & ? & ? & ?) _].
  done.
Qed.

(** X19. A setting changes through its own control only: whatever the
    action, the model name, the rules, the strip-defaults flag, the
    temperature and the token limit keep their values unless the action
    is a change of the selector, the rules text, the checkbox, the
    temperature field or the token field respectively. In particular
    sending, stopping, clearing and loading never alter a setting. *)
Theorem X19_settings_change_through_their_control_only
    (c : control) (load : load_outcome) (rep : reply) (sw : Sys) :
  ((∀ v, c ≠ ModelSelect v) → model (fst (act c load rep sw)) = model (fst sw)) ∧
  ((∀ v, c ≠ RulesChange v) →
   userRules (fst (act c load rep sw)) = userRules (fst sw)) ∧
  ((∀ b, c ≠ StripDefaultsCheckbox b) →
   stripDefaults (fst (act c load rep sw)) = stripDefaults (fst sw)) ∧
  ((∀ n, c ≠ TemperatureChange n) →
   temperature (fst (act c load rep sw)) = temperature (fst sw)) ∧
  ((∀ v, c ≠ MaxTokensChange v) →
   maxTokens (fst (act c load rep sw)) = maxTokens (fst sw)).
Proof.
  unfold act. destruct (enabled (fst sw) c); [|done].
  pose proof (send_config (fst sw) load rep sw) as (? & ? & ? & ? & ?).
  pose proof (initEngine_config (fst sw) load sw) as (? & ? & ? & ? & ?).
  destruct c; simpl; split_and!; intros Hc; try done;
    try (by destruct sw); by edestruct Hc.
Qed.

Lemma X19_witness :
  userRules (fst (act InputEnter (LoadResolves Run.llama)
                    (Streams Run.two_chunks StreamCompletes)
                    (Run.ready, initial_world))) = " Be terse. " ∧
  maxTokens (fst (act (TemperatureChange NaN) (LoadResolves Run.llama)
                    (Streams [] StreamCompletes) (Run.ready, initial_world))) =
    Dec 512 0.
Proof.
  split.
  - destruct (X19_settings_change_through_their_control_only InputEnter
                (LoadResolves Run.llama) (Streams Run.two_chunks StreamCompletes)
                (Run.ready, initial_world)) as (_ & Hrules & _).
    rewrite Hrules; [reflexivity|discriminate].
  - destruct (X19_settings_change_through_their_control_only (TemperatureChange NaN)
                (LoadResolves Run.llama) (Streams [] StreamCompletes)
                (Run.ready, initial_world)) as (_ & _ & _ & _ & Htokens).
    rewrite Htokens; [reflexivity|discriminate].
Defined.

(** X20. What was streamed is sent back as context. After a send whose
    stream delivered some chunks and ended in whatever way, the user
    types a new text and sends again: the second request carries the
    system message if [stripDefaults] is set, then the earlier history,
    the first user message, the assistant message with exactly the
    merged deltas (a partial answer if the stream failed or was
    cancelled), and the new user message. *)
Theorem X20_next_request_carries_the_streamed_answer
    (e : MLCEngine) (load : load_outcome) (chunks : list Chunk) (fin : stream_end)
    (text2 : string) (rep2 : reply) (sw : Sys) :
  engine (fst sw) = Some e →
  generating (fst sw) = false →
  truthy (trim (input (fst sw))) = true →
  truthy (trim text2) = true →
  ∃ req,
    last (requests (snd (act InputEnter load rep2
                           (act (InputChange text2) load rep2
                              (act InputEnter load (Streams chunks fin) sw))))) =
      Some req ∧
    req_messages req =
      (if stripDefaults (fst sw)
       then [{| param_role_of := system; param_content := trim (userRules (fst sw)) |}]
       else []) ++
      map to_param
        (messages (fst sw) ++
         [{| msg_role := user; content := trim (input (fst sw)) |};
          {| msg_role := assistant; content := merged chunks |};
          {| msg_role := user; content := trim text2 |}]).
Proof.
  intros He Hg Ht Ht2.
  set (sw1 := act InputEnter load (Streams chunks fin) sw).
  assert (Hsw1 : sw1 = send_ready (fst sw) e (Streams chunks fin) sw).
  { unfold sw1, act. simpl. rewrite Hg. simpl. by apply send_with_engine. }
  assert (Hcells : engine (fst sw1) = Some e ∧ generating (fst sw1) = false ∧
                   stripDefaults (fst sw1) = stripDefaults (fst sw) ∧
                   userRules (fst sw1) = userRules (fst sw) ∧
                   messages (fst sw1) =
                     messages (fst sw) ++
                     [{| msg_role := user; content := trim (input (fst sw)) |};
                      {| msg_role := assistant; content := merged chunks |}]).
  { rewrite Hsw1.
    destruct (send_ready_settings (fst sw) e (Streams chunks fin) sw)
      as [(Hen & _ & _ & Hu & Hs & _) _].
    rewrite Hen, Hu, Hs. split_and!; try done.
    - unfold send_ready. by rewrite Ht.
    - unfold send_ready. rewrite Ht. cbv zeta. cbn [fst].
      change (messages (setInput "" ?s)) with (messages s).
      apply run_messages. }
  destruct Hcells as (He1 & Hg1 & Hs1 & Hu1 & Hm1).
  destruct sw1 as [s1 w1]. simpl in He1, Hg1, Hs1, Hu1, Hm1.
  unfold act at 2. simpl. rewrite Hg1. simpl.
  unfold act. simpl. rewrite Hg1. simpl.
  rewrite (send_with_engine _ e) by done.
  rewrite send_ready_requests by done.
  eexists. split; [apply last_snoc|].
  simpl. unfold outbound, systemMessage. simpl.
  rewrite Hs1, Hu1, Hm1. by rewrite <- app_assoc.
Qed.

Lemma X20_witness :
  ∃ req,
    last (requests (snd (act InputEnter (LoadResolves Run.llama)
                           (Streams [] StreamCompletes)
                           (act (InputChange "why?") (LoadResolves Run.llama)
                              (Streams [] StreamCompletes)
                              (act InputEnter (LoadResolves Run.llama)
                                 (Streams [text_chunk "partial"]
                                    (StreamThrows Run.type_error))
                                 (Run.ready, initial_world)))))) = Some req ∧
    req_messages req =
      [{| param_role_of := system; param_content := "Be terse." |};
       {| param_role_of := chat user; param_content := "hi" |};
       {| param_role_of := chat assistant; param_content := "partial" |};
       {| param_role_of := chat user; param_content := "why?" |}].
Proof.
  destruct (X20_next_request_carries_the_streamed_answer Run.llama
              (LoadResolves Run.llama) [text_chunk "partial"]
              (StreamThrows Run.type_error) "why?" (Streams [] StreamCompletes)
              (Run.ready, initial_world) eq_refl eq_refl eq_refl eq_refl)
    as (req & Hlast & Hm).
  exists req. split; [exact Hlast|exact Hm].
Defined.
